(** * project-sifter: the discovery / dedup / analysis pipeline of [main.py]

    A shallow embedding of [src/main.py].  The script talks to four external
    collaborators (the DeepSeek HTTP endpoint, the SQLite file [jobs.db], a
    headless browser and trafilatura); each of them appears here as a field
    of an environment record [env], and everything the script itself
    decides (which exceptions it catches, which values it treats as
    failures, what it prints and when it writes to the table) is translated
    function by function.

    Conventions:
    - a Python call that may raise returns an [outcome];
    - the table [seen_urls] is a list of rows, its PRIMARY KEY is enforced
      by [add_url_to_db] exactly where SQLite enforces it (at INSERT);
    - everything observable (lines printed, HTTP requests sent, rows
      committed) is appended to a log of [event]s, so that orderings can be
      stated. *)

From Stdlib Require Import ZArith String Ascii List Bool Lia.
From stdpp Require Import base option list strings gmap pretty.

Local Open Scope string_scope.
Local Open Scope list_scope.
Set Warnings "-register-all".

(** ** Python exceptions *)

(** The exception classes the script can meet.  [RequestsJSONDecodeError]
    is [requests.exceptions.JSONDecodeError]; [JSONDecodeError] is
    [json.JSONDecodeError]. *)
Inductive exn_class : Type :=
| ConnectionError
| Timeout
| HTTPError
| RequestsJSONDecodeError
| JSONDecodeError
| KeyError
| IndexError
| TypeError
| UnboundLocalError
| IntegrityError
| PlaywrightError
| FileNotFoundError
| KeyboardInterrupt
| OtherException (name : string).

Inductive exn : Type := Exn (cls : exn_class) (msg : string).

Definition exn_cls (e : exn) : exn_class := let 'Exn c _ := e in c.
Definition exn_msg (e : exn) : string := let 'Exn _ m := e in m.

(** [issubclass(c, requests.exceptions.RequestException)].  Since requests
    2.27 the decode error of [response.json()] derives from
    [InvalidJSONError], itself a [RequestException]. *)
Definition is_RequestException (c : exn_class) : bool :=
  match c with
  | ConnectionError | Timeout | HTTPError | RequestsJSONDecodeError => true
  | _ => false
  end.

(** [issubclass(c, json.JSONDecodeError)]: the requests class derives from
    the json one as well. *)
Definition is_JSONDecodeError (c : exn_class) : bool :=
  match c with
  | JSONDecodeError | RequestsJSONDecodeError => true
  | _ => false
  end.

(** [issubclass(c, NameError)]. *)
Definition is_NameError (c : exn_class) : bool :=
  match c with
  | UnboundLocalError => true
  | _ => false
  end.

(** [issubclass(c, Exception)]: everything but the [BaseException]-only
    classes. *)
Definition is_Exception (c : exn_class) : bool :=
  match c with
  | KeyboardInterrupt => false
  | _ => true
  end.

Inductive outcome (A : Type) : Type :=
| Returned (a : A)
| Raised (e : exn).
Arguments Returned {A} a.
Arguments Raised {A} e.

#[global] Instance outcome_ret : MRet outcome := @Returned.
#[global] Instance outcome_bind : MBind outcome := fun A B f m =>
  match m with
  | Returned a => f a
  | Raised e => Raised e
  end.

(** ** Python values

    The values [json.loads] produces, which are also the values
    [analyze_with_deepseek] returns: [PNone] is Python's [None], whether it
    was decoded from [null] or returned at line 61. *)

(** A float is kept as the literal it was decoded from, together with the
    one property of it the script ever inspects: whether it is non-zero
    (truthiness). *)
Inductive pyval : Type :=
| PNone
| PBool (b : bool)
| PInt (z : Z)
| PFloat (nonzero : bool) (literal : string)
| PStr (s : string)
| PList (items : list pyval)
| PDict (items : list (string * pyval)).

(** [bool(v)]. *)
Definition truthy (v : pyval) : bool :=
  match v with
  | PNone => false
  | PBool b => b
  | PInt z => negb (z =? 0)%Z
  | PFloat nz _ => nz
  | PStr s => negb (String.eqb s "")
  | PList l => negb (Nat.eqb (length l) 0)
  | PDict d => negb (Nat.eqb (length d) 0)
  end.

(** [bool(x)] for a value that is [None] or a [str]. *)
Definition truthy_str (o : option string) : bool :=
  match o with
  | None => false
  | Some s => negb (String.eqb s "")
  end.

Fixpoint dict_get (k : string) (d : list (string * pyval)) : option pyval :=
  match d with
  | [] => None
  | (k', v) :: d' => if String.eqb k k' then Some v else dict_get k d'
  end.

(** [v[k]] for a string key [k]. *)
Definition getitem_str (v : pyval) (k : string) : outcome pyval :=
  match v with
  | PDict d =>
      match dict_get k d with
      | Some x => Returned x
      | None => Raised (Exn KeyError k)
      end
  | PList _ => Raised (Exn TypeError "list indices must be integers or slices, not str")
  | PStr _ => Raised (Exn TypeError "string indices must be integers, not 'str'")
  | _ => Raised (Exn TypeError "object is not subscriptable")
  end.

(** [v[0]].  A dict decoded from JSON has string keys only, so the integer
    key is never found. *)
Definition getitem_0 (v : pyval) : outcome pyval :=
  match v with
  | PList (x :: _) => Returned x
  | PList [] => Raised (Exn IndexError "list index out of range")
  | PStr (String c _) => Returned (PStr (String c EmptyString))
  | PStr EmptyString => Raised (Exn IndexError "string index out of range")
  | PDict _ => Raised (Exn KeyError "0")
  | _ => Raised (Exn TypeError "object is not subscriptable")
  end.

(** ** The remote call *)

Record request : Type := {
  req_url : string;
  req_headers : list (string * string);
  req_model : string;
  req_messages : list (string * string);   (* role, content *)
  req_temperature : string;                (* the literal 0.2 *)
  req_response_format : string
}.

Record response : Type := {
  status_code : Z;
  reason : string;
  text : string
}.

(** Which exception [response.json()] raises on a body that does not
    decode: [json.JSONDecodeError] itself before requests 2.27, the
    requests subclass of it from 2.27 on. *)
Inductive requests_release : Type := Before_2_27 | From_2_27.

(** ** The environment *)

Definition row : Type := (string * Z)%type.     (* url, processed_at *)

Record env : Type := {
  os_getenv : string -> option string;
  requests_post : request -> outcome response;
  requests_version : requests_release;
  json_loads_str : string -> outcome pyval;        (* json.loads on a str *)
  json_dumps : pyval -> string;                    (* json.dumps(v, indent=2) *)
  py_repr : pyval -> string;                       (* str(v) for a non-str v *)
  trafilatura_fetch_url : string -> outcome (option string);
  trafilatura_extract : option string -> outcome (option string);
  page_anchors : string -> outcome (list (option string));
  urljoin : string -> string -> outcome string;
  open_resume : outcome string;                    (* open("resume.txt").read() *)
  current_timestamp : Z
}.

Inductive event : Type :=
| Print (line : string)
| Post (req : request)
| Commit (url : string).

(** ** Computations

    [W A] is a computation that may raise and that only writes to the log;
    [M A] additionally reads and updates the rows of [seen_urls]. *)

Definition W (A : Type) : Type := (outcome A * list event)%type.
Definition M (A : Type) : Type := list row -> outcome A * list row * list event.

#[global] Instance M_ret : MRet M := fun A a t => (Returned a, t, []).

#[global] Instance M_bind : MBind M := fun A B f m t =>
  match m t with
  | (Returned a, t1, l1) => let '(r, t2, l2) := f a t1 in (r, t2, l1 ++ l2)
  | (Raised e, t1, l1) => (Raised e, t1, l1)
  end.

Definition lift {A : Type} (w : W A) : M A := fun t => (fst w, t, snd w).
Definition lift_outcome {A : Type} (o : outcome A) : M A := fun t => (o, t, []).
Definition print (line : string) : M unit := fun t => (Returned tt, t, [Print line]).

Definition result_of {A : Type} (r : outcome A * list row * list event) : outcome A := fst (fst r).
Definition rows_of {A : Type} (r : outcome A * list row * list event) : list row := snd (fst r).
Definition log_of {A : Type} (r : outcome A * list row * list event) : list event := snd r.

(** ** [analyze_with_deepseek] *)

Definition dquote : string := String "034"%char EmptyString.
Definition nl : string := String "010"%char EmptyString.

(** [f"{x}"] for a value that is [None] or a [str]. *)
Definition format_opt (o : option string) : string := default "None" o.

Definition DEEPSEEK_API_KEY (E : env) : option string := os_getenv E "DEEPSEEK_API_KEY".

(** The keys the prompt asks the model for. *)
Definition prompt_keys : list string :=
  ["job_title"; "company_name"; "match_score_10"; "key_strengths";
   "potential_gaps"; "summary_for_email"; "keywords_to_add"].

Fixpoint join (sep : string) (l : list string) : string :=
  match l with
  | [] => ""
  | [x] => x
  | x :: l' => x +:+ sep +:+ join sep l'
  end.

Definition build_prompt (job_text resume_text : string) : string :=
  nl +:+
  "    You are an expert career coach and AI Engineering hiring manager. Analyze the job description and compare it to my resume. Provide a concise, structured analysis in JSON format." +:+ nl +:+
  nl +:+
  "    MY RESUME:" +:+ nl +:+
  "    ---" +:+ nl +:+
  "    " +:+ resume_text +:+ nl +:+
  "    ---" +:+ nl +:+
  nl +:+
  "    JOB DESCRIPTION:" +:+ nl +:+
  "    ---" +:+ nl +:+
  "    " +:+ job_text +:+ nl +:+
  "    ---" +:+ nl +:+
  nl +:+
  "    Based on the comparison, provide a JSON object with ONLY the following keys:" +:+ nl +:+
  "    " +:+ join ", " (map (fun k => dquote +:+ k +:+ dquote) prompt_keys) +:+ "." +:+ nl +:+
  "    ".

Definition build_request (E : env) (job_text resume_text : string) : request :=
  {| req_url := "https://api.deepseek.com/chat/completions";
     req_headers :=
       [("Content-Type", "application/json");
        ("Authorization", "Bearer " +:+ format_opt (DEEPSEEK_API_KEY E))];
     req_model := "deepseek-chat";
     req_messages := [("user", build_prompt job_text resume_text)];
     req_temperature := "0.2";
     req_response_format := "json_object" |}.

(** [response.raise_for_status()]: an [HTTPError] for 4xx and 5xx. *)
Definition raise_for_status (url : string) (r : response) : outcome unit :=
  if (400 <=? status_code r)%Z && (status_code r <? 500)%Z then
    Raised (Exn HTTPError
      (pretty (status_code r) +:+ " Client Error: " +:+ reason r +:+ " for url: " +:+ url))
  else if (500 <=? status_code r)%Z && (status_code r <? 600)%Z then
    Raised (Exn HTTPError
      (pretty (status_code r) +:+ " Server Error: " +:+ reason r +:+ " for url: " +:+ url))
  else Returned tt.

(** [response.json()]: decodes the body; from requests 2.27 on a decode
    error is re-raised as the requests class. *)
Definition response_json (E : env) (r : response) : outcome pyval :=
  match json_loads_str E (text r) with
  | Returned v => Returned v
  | Raised (Exn c m) =>
      match requests_version E with
      | Before_2_27 => Raised (Exn c m)
      | From_2_27 =>
          if is_JSONDecodeError c then Raised (Exn RequestsJSONDecodeError m)
          else Raised (Exn c m)
      end
  end.

(** [json.loads(v)]: only a [str] is decoded. *)
Definition json_loads (E : env) (v : pyval) : outcome pyval :=
  match v with
  | PStr s => json_loads_str E s
  | _ => Raised (Exn TypeError "the JSON object must be str, bytes or bytearray")
  end.

(** [response.json()["choices"][0]["message"]["content"]]. *)
Definition unwrap_envelope (j : pyval) : outcome pyval :=
  choices ← getitem_str j "choices";
  first ← getitem_0 choices;
  message ← getitem_str first "message";
  getitem_str message "content".

(** How the [try] block of [analyze_with_deepseek] is left: by its
    [return], or by an exception, together with the binding the local
    [result_content] has at that moment ([None]: not yet assigned). *)
Inductive try_exit : Type :=
| Completed (v : pyval)
| Failed (result_content : option pyval) (e : exn).

Definition try_block (E : env) (req : request) : try_exit :=
  match requests_post E req with
  | Raised e => Failed None e
  | Returned response =>
      match raise_for_status (req_url req) response with
      | Raised e => Failed None e
      | Returned _ =>
          match response_json E response ≫= unwrap_envelope with
          | Raised e => Failed None e
          | Returned result_content =>
              match json_loads E result_content with
              | Raised e => Failed (Some result_content) e
              | Returned v => Completed v
              end
          end
      end
  end.

(** [f"{v}"]. *)
Definition format_value (E : env) (v : pyval) : string :=
  match v with
  | PStr s => s
  | _ => py_repr E v
  end.

Definition analyze_with_deepseek (E : env) (job_text resume_text : string)
  : W pyval :=
  let req := build_request E job_text resume_text in
  match try_block E req with
  | Completed v => (Returned v, [Post req])
  | Failed result_content e =>
      if is_RequestException (exn_cls e) then
        (Returned PNone,
         [Post req; Print ("Error calling Deepseek API: " +:+ exn_msg e)])
      else if is_JSONDecodeError (exn_cls e) then
        match result_content with
        | Some c =>
            (Returned PNone,
             [Post req;
              Print ("Error: Failed to decode JSON from API. Response was: "
                     +:+ format_value E c)])
        | None =>
            (Raised (Exn UnboundLocalError
               "cannot access local variable 'result_content' where it is not associated with a value"),
             [Post req])
        end
      else (Raised e, [Post req])
  end.

(** ** The Seen-Store: table [seen_urls] of [jobs.db] *)

Definition DATABASE_FILE : string := "jobs.db".

(** [CREATE TABLE IF NOT EXISTS]: a table that exists keeps its rows, a
    missing one is created empty; the rows are all the state there is. *)
Definition setup_database : M unit := fun t => (Returned tt, t, []).

(** [SELECT url FROM seen_urls WHERE url = ?]. *)
Definition select_url (url : string) (t : list row) : list string :=
  map fst (filter (fun r => String.eqb (fst r) url) t).

Definition fetchone {A : Type} (rows : list A) : option A := head rows.

Definition is_url_new (url : string) : M bool := fun t =>
  (Returned (match fetchone (select_url url t) with
             | None => true
             | Some _ => false
             end), t, []).

(** [INSERT INTO seen_urls (url) VALUES (?)] followed by [commit]: the
    PRIMARY KEY rejects a url that already has a row, and nothing is
    written then. *)
Definition add_url_to_db (E : env) (url : string) : M unit := fun t =>
  match fetchone (select_url url t) with
  | Some _ =>
      (Raised (Exn IntegrityError "UNIQUE constraint failed: seen_urls.url"), t, [])
  | None => (Returned tt, t ++ [(url, current_timestamp E)], [Commit url])
  end.

(** ** [get_clean_text_from_url] *)

Definition get_clean_text_from_url (E : env) (url : string) : W (option string) :=
  match trafilatura_fetch_url E url ≫= trafilatura_extract E with
  | Returned clean_text => (Returned clean_text, [])
  | Raised e =>
      if is_Exception (exn_cls e) then
        (Returned None,
         [Print ("Error extracting text from " +:+ url +:+ ": " +:+ exn_msg e)])
      else (Raised e, [])
  end.

(** ** [find_new_job_links] *)

(** [sub in s]. *)
Fixpoint contains (sub s : string) : bool :=
  String.prefix sub s ||
  match s with
  | EmptyString => false
  | String _ s' => contains sub s'
  end.

(** The locator [a[href*="/jobs/"], a[href*="/careers/"]], on the [href]
    attribute of an anchor ([None]: the anchor has no such attribute). *)
Definition matches_locator (href : option string) : bool :=
  match href with
  | None => false
  | Some h => contains "/jobs/" h || contains "/careers/" h
  end.

(** Lines 131-134: a non-empty [href] that does not start with ["http"] is
    joined against the page url; [urljoin] raises [ValueError] on a target
    it cannot parse, and nothing here catches it. *)
Definition resolve (E : env) (target_page_url : string) (href : option string)
  : outcome (option string) :=
  match href with
  | Some h =>
      if negb (String.eqb h "") && negb (String.prefix "http" h)
      then joined ← urljoin E target_page_url h; mret (Some joined)
      else Returned (Some h)
  | None => Returned None
  end.

(** The body of the [for link_locator in links] loop, threading
    [new_links]. *)
Fixpoint collect_links (E : env) (target_page_url : string)
    (links : list (option string)) (new_links : list string) : M (list string) :=
  match links with
  | [] => mret new_links
  | href :: rest =>
      resolved ← lift_outcome (resolve E target_page_url href);
      match resolved with
      | Some h =>
          if negb (String.eqb h "") then
            fresh ← is_url_new h;
            if (fresh : bool)
            then collect_links E target_page_url rest (new_links ++ [h])
            else collect_links E target_page_url rest new_links
          else collect_links E target_page_url rest new_links
      | None => collect_links E target_page_url rest new_links
      end
  end.

(** [list(set(new_links))]: the order in which a Python set is iterated is
    left to the hash seed; [elements] fixes one.  The theorems below speak
    of the list as a set, of membership and of prefixes, and hold for
    every order; only a worked example with two new identifiers names
    the one that comes first. *)
Definition unique (l : list string) : list string :=
  elements (list_to_set l : gset string).

Definition find_new_job_links (E : env) (target_page_url : string) : M (list string) :=
  print ("Scraping " +:+ target_page_url +:+ " for job links...");;
  anchors ← lift_outcome (page_anchors E target_page_url);
  new_links ← collect_links E target_page_url (filter (fun a => matches_locator a = true) anchors) [];
  mret (unique new_links).

(** ** The script body *)

Definition TARGET_URL : string := "https://jobs.cisco.com/jobs/SearchJobs/internship".

(** The body of [for url in new_job_urls]. *)
Definition process_url (E : env) (my_resume : string) (url : string) : M unit :=
  print ("--- Processing new job: " +:+ url +:+ " ---");;
  job_description ← lift (get_clean_text_from_url E url);
  match job_description with
  | Some text =>
      if negb (String.eqb text "") then
        analysis ← lift (analyze_with_deepseek E text my_resume);
        if truthy analysis then
          print "Analysis complete:";;
          print (json_dumps E analysis);;
          add_url_to_db E url;;
          print ("Successfully processed and saved " +:+ url +:+ " to database.")
        else mret tt
      else mret tt
  | None => mret tt
  end.

Fixpoint for_each {A : Type} (body : A -> M unit) (l : list A) : M unit :=
  match l with
  | [] => mret tt
  | x :: l' => body x;; for_each body l'
  end.

Definition main (E : env) : M unit :=
  setup_database;;
  my_resume ← lift_outcome (open_resume E);
  new_job_urls ← find_new_job_links E TARGET_URL;
  print ("Found " +:+ pretty (length new_job_urls) +:+ " new job postings.");;
  for_each (process_url E my_resume) new_job_urls.

(** ** A reference JSON codec for the worked examples

    The theorems below hold for every decoder and encoder an [env] may
    carry.  The worked examples need a concrete one: a recursive-descent
    decoder for JSON without [\u] escapes, and an encoder that lays values
    out the way [indent=2] does. *)

Module Json.

Definition is_ws (c : ascii) : bool :=
  Ascii.eqb c " "%char || Ascii.eqb c "009"%char ||
  Ascii.eqb c "010"%char || Ascii.eqb c "013"%char.

Fixpoint skip_ws (s : string) : string :=
  match s with
  | String c r => if is_ws c then skip_ws r else s
  | EmptyString => s
  end.

Definition is_digit (c : ascii) : bool :=
  (48 <=? nat_of_ascii c)%nat && (nat_of_ascii c <=? 57)%nat.

Fixpoint take_digits (s : string) : string * string :=
  match s with
  | String c r =>
      if is_digit c then let '(d, r') := take_digits r in (String c d, r')
      else (EmptyString, s)
  | EmptyString => (EmptyString, s)
  end.

Fixpoint digits_value (acc : Z) (s : string) : Z :=
  match s with
  | String c r => digits_value (10 * acc + Z.of_nat (nat_of_ascii c - 48)) r
  | EmptyString => acc
  end.

Fixpoint has_nonzero_digit (s : string) : bool :=
  match s with
  | String c r => (is_digit c && negb (Ascii.eqb c "0"%char)) || has_nonzero_digit r
  | EmptyString => false
  end.

(** The characters of a string literal after its opening quote, up to and
    without the closing one. *)
Fixpoint string_body (s : string) : option (string * string) :=
  match s with
  | EmptyString => None
  | String c r =>
      if Ascii.eqb c "034"%char then Some (EmptyString, r)
      else if Ascii.eqb c "\"%char then
        match r with
        | String e r' =>
            let plain (x : ascii) :=
              match string_body r' with
              | Some (b, rest) => Some (String x b, rest)
              | None => None
              end in
            if Ascii.eqb e "034"%char then plain "034"%char
            else if Ascii.eqb e "\"%char then plain "\"%char
            else if Ascii.eqb e "/"%char then plain "/"%char
            else if Ascii.eqb e "n"%char then plain "010"%char
            else if Ascii.eqb e "t"%char then plain "009"%char
            else if Ascii.eqb e "r"%char then plain "013"%char
            else None
        | EmptyString => None
        end
      else
        match string_body r with
        | Some (b, rest) => Some (String c b, rest)
        | None => None
        end
  end.

Definition number (s : string) : option (pyval * string) :=
  let '(neg, s1) :=
    match s with
    | String c r => if Ascii.eqb c "-"%char then (true, r) else (false, s)
    | EmptyString => (false, s)
    end in
  let '(int_part, s2) := take_digits s1 in
  if String.eqb int_part "" then None else
  let '(frac, s3) :=
    match s2 with
    | String c r =>
        if Ascii.eqb c "."%char then let '(d, r') := take_digits r in ("." +:+ d, r')
        else ("", s2)
    | EmptyString => ("", s2)
    end in
  if String.eqb frac "" then
    let z := digits_value 0 int_part in
    Some (PInt (if neg then - z else z)%Z, s3)
  else if String.eqb frac "." then None
  else
    Some (PFloat (has_nonzero_digit int_part || has_nonzero_digit frac)
                 ((if neg then "-" else "") +:+ int_part +:+ frac), s3).

Fixpoint dict_set (k : string) (v : pyval) (d : list (string * pyval))
  : list (string * pyval) :=
  match d with
  | [] => [(k, v)]
  | (k', v') :: d' =>
      if String.eqb k k' then (k, v) :: d' else (k', v') :: dict_set k v d'
  end.

Definition literal (word : string) (v : pyval) (s : string) : option (pyval * string) :=
  if String.prefix word s
  then Some (v, String.substring (String.length word) (String.length s - String.length word) s)
  else None.

Inductive mode : Type :=
| Value
| Elements (acc : list pyval)
| Members (acc : list (string * pyval)).

Fixpoint parse (fuel : nat) (m : mode) (s : string) : option (pyval * string) :=
  match fuel with
  | O => None
  | S fuel' =>
      match m, skip_ws s with
      | Value, String c r =>
          if Ascii.eqb c "{"%char then
            match skip_ws r with
            | String c' r' =>
                if Ascii.eqb c' "}"%char then Some (PDict [], r')
                else parse fuel' (Members []) r
            | EmptyString => None
            end
          else if Ascii.eqb c "["%char then
            match skip_ws r with
            | String c' r' =>
                if Ascii.eqb c' "]"%char then Some (PList [], r')
                else parse fuel' (Elements []) r
            | EmptyString => None
            end
          else if Ascii.eqb c "034"%char then
            match string_body r with
            | Some (b, r') => Some (PStr b, r')
            | None => None
            end
          else if Ascii.eqb c "t"%char then literal "true" (PBool true) (String c r)
          else if Ascii.eqb c "f"%char then literal "false" (PBool false) (String c r)
          else if Ascii.eqb c "n"%char then literal "null" PNone (String c r)
          else number (String c r)
      | Value, EmptyString => None
      | Elements acc, s' =>
          match parse fuel' Value s' with
          | Some (v, r) =>
              match skip_ws r with
              | String c r' =>
                  if Ascii.eqb c ","%char then parse fuel' (Elements (acc ++ [v])) r'
                  else if Ascii.eqb c "]"%char then Some (PList (acc ++ [v]), r')
                  else None
              | EmptyString => None
              end
          | None => None
          end
      | Members acc, String c r =>
          if Ascii.eqb c "034"%char then
            match string_body r with
            | Some (k, r1) =>
                match skip_ws r1 with
                | String c1 r2 =>
                    if Ascii.eqb c1 ":"%char then
                      match parse fuel' Value r2 with
                      | Some (v, r3) =>
                          match skip_ws r3 with
                          | String c3 r4 =>
                              if Ascii.eqb c3 ","%char
                              then parse fuel' (Members (dict_set k v acc)) r4
                              else if Ascii.eqb c3 "}"%char
                              then Some (PDict (dict_set k v acc), r4)
                              else None
                          | EmptyString => None
                          end
                      | None => None
                      end
                    else None
                | EmptyString => None
                end
            | None => None
            end
          else None
      | Members _, EmptyString => None
      end
  end.

Definition loads (s : string) : outcome pyval :=
  match parse (2 * String.length s + 2) Value s with
  | Some (v, r) =>
      if String.eqb (skip_ws r) "" then Returned v
      else Raised (Exn JSONDecodeError "Extra data")
  | None => Raised (Exn JSONDecodeError "Expecting value")
  end.

Fixpoint escape (s : string) : string :=
  match s with
  | EmptyString => EmptyString
  | String c r =>
      if Ascii.eqb c "034"%char then String "\"%char (String c (escape r))
      else if Ascii.eqb c "\"%char then String "\"%char (String c (escape r))
      else if Ascii.eqb c "010"%char then String "\"%char (String "n"%char (escape r))
      else String c (escape r)
  end.

Fixpoint spaces (n : nat) : string :=
  match n with
  | O => ""
  | S n' => " " +:+ spaces n'
  end.

Fixpoint dumps_at (level : nat) (v : pyval) : string :=
  match v with
  | PNone => "null"
  | PBool true => "true"
  | PBool false => "false"
  | PInt z => pretty z
  | PFloat _ lit => lit
  | PStr s => dquote +:+ escape s +:+ dquote
  | PList [] => "[]"
  | PList l =>
      "[" +:+ nl +:+ spaces (2 * S level) +:+
      join ("," +:+ nl +:+ spaces (2 * S level)) (map (dumps_at (S level)) l) +:+
      nl +:+ spaces (2 * level) +:+ "]"
  | PDict [] => "{}"
  | PDict d =>
      "{" +:+ nl +:+ spaces (2 * S level) +:+
      join ("," +:+ nl +:+ spaces (2 * S level))
        (map (fun kv => dquote +:+ escape (fst kv) +:+ dquote +:+ ": " +:+
                        dumps_at (S level) (snd kv)) d) +:+
      nl +:+ spaces (2 * level) +:+ "}"
  end.

Definition dumps (v : pyval) : string := dumps_at 0 v.

End Json.

(** ** Notions used to state the properties *)

(** The identifiers that have a row. *)
Definition seen (t : list row) : gset string := list_to_set (t.*1).

(** The number of rows an identifier has. *)
Definition records_of (url : string) (t : list row) : nat :=
  length (select_url url t).

(** The PRIMARY KEY constraint as an invariant of the rows. *)
Definition primary_key (t : list row) : Prop := NoDup (t.*1).

(** The operations of the Seen-Store, to speak of "any later use". *)
Inductive store_op : Type :=
| Initialize
| Contains (url : string)
| Record_ (url : string).

Definition run_op (E : env) (op : store_op) (t : list row) : list row :=
  match op with
  | Initialize => rows_of (setup_database t)
  | Contains url => rows_of (is_url_new url t)
  | Record_ url => rows_of (add_url_to_db E url t)
  end.

Definition run_ops (E : env) (ops : list store_op) (t : list row) : list row :=
  fold_left (fun t op => run_op E op t) ops t.

(** What lines 131-134 make of an anchor, when they return. *)
Definition resolved (E : env) (target_page_url : string) (href : option string)
  : option string :=
  match resolve E target_page_url href with
  | Returned o => o
  | Raised _ => None
  end.

(** The exception of the first link [urljoin] rejects, if there is one:
    the loop of lines 128-137 ends with it. *)
Fixpoint first_failure (E : env) (target_page_url : string)
    (links : list (option string)) : option exn :=
  match links with
  | [] => None
  | href :: rest =>
      match resolve E target_page_url href with
      | Raised e => Some e
      | Returned _ => first_failure E target_page_url rest
      end
  end.

(** Every anchor the locator selects has a target [urljoin] accepts. *)
Definition resolvable (E : env) (target_page_url : string)
    (anchors : list (option string)) : Prop :=
  first_failure E target_page_url (filter (fun a => matches_locator a = true) anchors)
    = None.

(** The identifiers a page listing yields: the resolved, non-empty link
    targets of the anchors the locator selects. *)
Definition discovered (E : env) (target_page_url : string)
    (anchors : list (option string)) : gset string :=
  list_to_set
    (filter (fun h => h ≠ "")
       (omap (resolved E target_page_url)
          (filter (fun a => matches_locator a = true) anchors))).

(** The links [collect_links] appends: the resolved, non-empty targets that
    have no row. *)
Definition new_of (E : env) (target_page_url : string) (t : list row)
    (links : list (option string)) : list string :=
  filter (fun h => h ≠ "" ∧ h ∉ t.*1) (omap (resolved E target_page_url) links).

(** The identifier line 131-134 computes for a link target. *)
Definition identifier_of (E : env) (target_page_url href : string) : outcome string :=
  if String.prefix "http" href then Returned href else urljoin E target_page_url href.

(** *** Relative and absolute references

    A reference is absolute when it starts with a scheme, a letter
    followed by letters, digits, [+], [-] or [.], and a colon (RFC 3986,
    section 4.3); it is relative otherwise. *)

Definition is_upper (c : ascii) : bool :=
  (65 <=? nat_of_ascii c)%nat && (nat_of_ascii c <=? 90)%nat.

Definition is_lower (c : ascii) : bool :=
  (97 <=? nat_of_ascii c)%nat && (nat_of_ascii c <=? 122)%nat.

Definition is_alpha (c : ascii) : bool := is_upper c || is_lower c.

Definition is_scheme_char (c : ascii) : bool :=
  is_alpha c || ((48 <=? nat_of_ascii c)%nat && (nat_of_ascii c <=? 57)%nat) ||
  Ascii.eqb c "+"%char || Ascii.eqb c "-"%char || Ascii.eqb c "."%char.

Fixpoint scheme_rest (s : string) : option (string * string) :=
  match s with
  | EmptyString => None
  | String c r =>
      if Ascii.eqb c ":"%char then Some (EmptyString, r)
      else if is_scheme_char c then
        match scheme_rest r with
        | Some (scheme, rest) => Some (String c scheme, rest)
        | None => None
        end
      else None
  end.

(** The scheme of a reference and what follows its colon. *)
Definition split_scheme (s : string) : option (string * string) :=
  match s with
  | String c _ => if is_alpha c then scheme_rest s else None
  | EmptyString => None
  end.



(** A result with more log in front of it. *)
Definition prepend_log {A : Type} (l : list event)
    (r : outcome A * list row * list event) : outcome A * list row * list event :=
  (result_of r, rows_of r, l ++ log_of r).

(** The happy path of the [try] block: the post is answered, the status is
    neither 4xx nor 5xx, the envelope unwraps to a string and that string
    decodes to [v]. *)
Definition delivered (E : env) (req : request) (v : pyval) : Prop :=
  ∃ (resp : response) (s : string),
    requests_post E req = Returned resp ∧
    raise_for_status (req_url req) resp = Returned tt ∧
    response_json E resp ≫= unwrap_envelope = Returned (PStr s) ∧
    json_loads_str E s = Returned v.

(** *** The AnalysisResult of the specification

    The record the specification describes, as a check on a decoded value:
    the seven keys of the prompt, two strings, a title and a company, an
    integer score between 0 and 10, and three lists of strings. *)

Definition is_str (v : pyval) : bool :=
  match v with
  | PStr _ => true
  | _ => false
  end.

Definition is_str_list (v : pyval) : bool :=
  match v with
  | PList l => forallb is_str l
  | _ => false
  end.

Definition is_score (v : pyval) : bool :=
  match v with
  | PInt z => (0 <=? z)%Z && (z <=? 10)%Z
  | _ => false
  end.

Definition field (d : list (string * pyval)) (k : string) (check : pyval -> bool) : bool :=
  match dict_get k d with
  | Some v => check v
  | None => false
  end.

Definition conforms (v : pyval) : bool :=
  match v with
  | PDict d =>
      field d "job_title" is_str &&
      field d "company_name" is_str &&
      field d "match_score_10" is_score &&
      field d "key_strengths" is_str_list &&
      field d "potential_gaps" is_str_list &&
      field d "summary_for_email" is_str &&
      field d "keywords_to_add" is_str_list
  | _ => false
  end.

(** "Either an AnalysisResult with every field populated as specified, or
    absent." *)
Definition schema_conformant (r : outcome pyval) : Prop :=
  r = Returned PNone ∨ ∃ v, r = Returned v ∧ conforms v = true.

(** *** Outcomes of a run, as the specification words them *)

(** "Fails fast, before attempting any remote-service call." *)
Definition fails_fast (r : outcome unit * list row * list event) : Prop :=
  (∃ e, result_of r = Raised e) ∧ ∀ req, Post req ∉ log_of r.

(** "Treats the run as having found zero links and exits cleanly." *)
Definition exits_with_zero_links (r : outcome unit * list row * list event) : Prop :=
  result_of r = Returned tt ∧ Print "Found 0 new job postings." ∈ log_of r.


(** The per-item failures the loop body absorbs: trafilatura raising an
    [Exception], trafilatura returning nothing, the remote call ending in
    a [RequestException], and a reply content that does not decode. *)
Inductive contained (E : env) (my_resume url : string) : Prop :=
| extraction_raised (e : exn) :
    trafilatura_fetch_url E url ≫= trafilatura_extract E = Raised e →
    is_Exception (exn_cls e) = true →
    contained E my_resume url
| extraction_empty (clean_text : option string) :
    trafilatura_fetch_url E url ≫= trafilatura_extract E = Returned clean_text →
    truthy_str clean_text = false →
    contained E my_resume url
| transport_failed (text : string) (rc : option pyval) (e : exn) :
    trafilatura_fetch_url E url ≫= trafilatura_extract E = Returned (Some text) →
    text ≠ "" →
    try_block E (build_request E text my_resume) = Failed rc e →
    is_RequestException (exn_cls e) = true →
    contained E my_resume url
| content_not_json (text : string) (c : pyval) (e : exn) :
    trafilatura_fetch_url E url ≫= trafilatura_extract E = Returned (Some text) →
    text ≠ "" →
    try_block E (build_request E text my_resume) = Failed (Some c) e →
    is_JSONDecodeError (exn_cls e) = true →
    contained E my_resume url.

(** The lines the loop body prints around its two steps. *)
Definition processing_line (url : string) : event :=
  Print ("--- Processing new job: " +:+ url +:+ " ---").

Definition saved_line (url : string) : event :=
  Print ("Successfully processed and saved " +:+ url +:+ " to database.").

Definition scraping_line (page : string) : event :=
  Print ("Scraping " +:+ page +:+ " for job links...").

Definition found_line (n : nat) : event :=
  Print ("Found " +:+ pretty n +:+ " new job postings.").

Definition is_commit (ev : event) : bool :=
  match ev with
  | Commit _ => true
  | _ => false
  end.

(** "Raises an unhandled NameError." *)
Definition raises_NameError {A : Type} (r : outcome A) : Prop :=
  ∃ e, r = Raised e ∧ is_NameError (exn_cls e) = true.

(** The value of the [Authorization] header of a request. *)
Definition authorization (req : request) : option string :=
  snd <$> head (filter (fun h => fst h = "Authorization") (req_headers req)).

(** ** Worked environments

    Concrete collaborators for the examples: a listing page, a posting
    whose text trafilatura returns, and a reply of the remote service. *)

Module Example.

(** [urllib.parse.urljoin] on references without query, fragment,
    parameters or dot segments: scheme and authority of the base are
    kept, a path that does not start with a slash is put after the
    directory of the base path, a target with another scheme is returned
    as it is, one with the scheme of the base gets it in lower case, and
    an authority with an unmatched bracket is a [ValueError]. *)

Definition to_lower (c : ascii) : ascii :=
  if is_upper c then ascii_of_nat (nat_of_ascii c + 32) else c.

Fixpoint lowercase (s : string) : string :=
  match s with
  | EmptyString => EmptyString
  | String c r => String (to_lower c) (lowercase r)
  end.

Fixpoint until_slash (s : string) : string * string :=
  match s with
  | String c r =>
      if Ascii.eqb c "/"%char then (EmptyString, s)
      else let '(a, b) := until_slash r in (String c a, b)
  | EmptyString => (EmptyString, EmptyString)
  end.

Fixpoint has_char (c : ascii) (s : string) : bool :=
  match s with
  | EmptyString => false
  | String d r => Ascii.eqb c d || has_char c r
  end.

(** The authority, if there is one, and the path of what follows the
    scheme. *)
Definition split_netloc (s : string) : option string * string :=
  match s with
  | String a (String b r) =>
      if Ascii.eqb a "/"%char && Ascii.eqb b "/"%char
      then let '(netloc, path) := until_slash r in (Some netloc, path)
      else (None, s)
  | _ => (None, s)
  end.

Definition brackets_ok (netloc : string) : bool :=
  Bool.eqb (has_char "["%char netloc) (has_char "]"%char netloc).

(** A path up to and with its last slash. *)
Fixpoint directory (path : string) : string :=
  match path with
  | EmptyString => EmptyString
  | String c r =>
      if has_char "/"%char r then String c (directory r)
      else if Ascii.eqb c "/"%char then String c EmptyString else EmptyString
  end.

Definition unparse (scheme netloc path : string) : string :=
  scheme +:+ "://" +:+ netloc +:+ path.

Definition urljoin_reference (base url : string) : outcome string :=
  match split_scheme base with
  | None => Returned url
  | Some (bs, brest) =>
      let bscheme := lowercase bs in
      let '(bnetloc, bpath) := split_netloc brest in
      let '(scheme, rest) :=
        match split_scheme url with
        | Some (s, r) => (lowercase s, r)
        | None => (bscheme, url)
        end in
      let '(netloc, path) := split_netloc rest in
      if negb (brackets_ok (default "" netloc))
      then Raised (Exn (OtherException "ValueError") "Invalid IPv6 URL")
      else if negb (String.eqb scheme bscheme) then Returned url
      else
        match netloc with
        | Some n => Returned (unparse scheme n path)
        | None =>
            if String.eqb path ""
            then Returned (unparse scheme (default "" bnetloc) bpath)
            else if String.prefix "/" path
            then Returned (unparse scheme (default "" bnetloc) path)
            else Returned
                   (unparse scheme (default "" bnetloc)
                      ((if String.eqb (directory bpath) "" then "/" else directory bpath)
                       +:+ path))
        end
  end.

Definition world (key : option string) (release : requests_release)
    (listing : outcome (list (option string)))
    (fetch : string -> outcome (option string))
    (reply : outcome response) : env :=
  {| os_getenv := fun name => if String.eqb name "DEEPSEEK_API_KEY" then key else None;
     requests_post := fun _ => reply;
     requests_version := release;
     json_loads_str := Json.loads;
     json_dumps := Json.dumps;
     py_repr := Json.dumps;
     trafilatura_fetch_url := fetch;
     trafilatura_extract := fun downloaded => Returned downloaded;
     page_anchors := fun _ => listing;
     urljoin := urljoin_reference;
     open_resume := Returned "Three years of Python and OCaml.";
     current_timestamp := 1762128000%Z |}.

Definition ok (body : string) : outcome response :=
  Returned {| status_code := 200; reason := "OK"; text := body |}.

(** The body of a reply whose first choice carries [content]. *)
Definition envelope (content : pyval) : string :=
  Json.dumps
    (PDict [("choices",
             PList [PDict [("message",
                            PDict [("role", PStr "assistant");
                                   ("content", content)])]])]).

Definition posting (url : string) : outcome (option string) :=
  Returned (Some "Software engineering intern, compilers team.").

Definition full_analysis : pyval :=
  PDict [("job_title", PStr "Software Engineering Intern");
         ("company_name", PStr "Cisco");
         ("match_score_10", PInt 7);
         ("key_strengths", PList [PStr "Python"]);
         ("potential_gaps", PList [PStr "Networking"]);
         ("summary_for_email", PStr "A good match.");
         ("keywords_to_add", PList [PStr "TCP/IP"])].

Definition listing_x : outcome (list (option string)) :=
  Returned [Some "https://x/jobs/1"; Some "https://x/jobs/2"].

Definition one_link : outcome (list (option string)) :=
  Returned [Some "https://x/jobs/2"].

(** Everything succeeds. *)
Definition sunny : env :=
  world (Some "sk-test") From_2_27 listing_x posting
        (ok (envelope (PStr (Json.dumps full_analysis)))).

(** The model answers with an object that has a single, out-of-range
    field. *)
Definition off_schema : env :=
  world (Some "sk-test") From_2_27 one_link posting
        (ok (envelope (PStr (Json.dumps (PDict [("match_score_10", PInt 42)]))))).

(** The model answers with the empty object. *)
Definition empty_object : env :=
  world (Some "sk-test") From_2_27 one_link posting
        (ok (envelope (PStr "{}"))).

(** The listing page does not load. *)
Definition page_down : env :=
  world (Some "sk-test") From_2_27
        (Raised (Exn PlaywrightError "Page.goto: Timeout 30000ms exceeded."))
        posting (ok (envelope (PStr (Json.dumps full_analysis)))).

(** The service answers 200 with a JSON body that has no ["choices"]. *)
Definition no_choices : env :=
  world (Some "sk-test") From_2_27 listing_x posting (ok "{}").

(** The credential variable is not set. *)
Definition no_key : env :=
  world None From_2_27 one_link posting
        (ok (envelope (PStr (Json.dumps full_analysis)))).

(** The service answers 200 with a body that is not JSON. *)
Definition html_body (release : requests_release) : env :=
  world (Some "sk-test") release one_link posting (ok "<html>Bad gateway</html>").

(** A listing with a root-relative and an absolute target. *)
Definition mixed_links : env :=
  world (Some "sk-test") From_2_27
        (Returned [Some "/jobs/2"; Some "https://x/jobs/1"; None; Some "/about"])
        posting (ok (envelope (PStr (Json.dumps full_analysis)))).

Definition resume : string := "Three years of Python and OCaml.".
Definition seen_1 : list row := [("https://x/jobs/1", 1762041600%Z)].

End Example.

(** ** Further notions and environments *)

Definition is_post (ev : event) : bool :=
  match ev with
  | Post _ => true
  | _ => false
  end.

(** The identifiers committed in a log, in order. *)
Fixpoint commits (log : list event) : list string :=
  match log with
  | [] => []
  | Commit url :: log' => url :: commits log'
  | _ :: log' => commits log'
  end.

(** The requests sent in a log, in order. *)
Fixpoint posts (log : list event) : list request :=
  match log with
  | [] => []
  | Post req :: log' => req :: posts log'
  | _ :: log' => posts log'
  end.

(** The rows a run appends for the identifiers it records. *)
Definition rows_for (E : env) (urls : list string) : list row :=
  map (fun url => (url, current_timestamp E)) urls.

(** Extraction and comparison both give a value Python counts as true. *)
Definition succeeds (E : env) (my_resume url : string) : Prop :=
  ∃ text a,
    fst (get_clean_text_from_url E url) = Returned (Some text) ∧
    text ≠ "" ∧
    fst (analyze_with_deepseek E text my_resume) = Returned a ∧
    truthy a = true.

(** The envelope line 53 expects: an object whose ["choices"] is a list
    starting with an object whose ["message"] is an object with a
    ["content"]. *)
Definition well_shaped (j content : pyval) : Prop :=
  ∃ d others d1 d2,
    j = PDict d ∧
    dict_get "choices" d = Some (PList (PDict d1 :: others)) ∧
    dict_get "message" d1 = Some (PDict d2) ∧
    dict_get "content" d2 = Some content.

(** The classes [unwrap_envelope] can raise. *)
Definition is_lookup_error (c : exn_class) : bool :=
  match c with
  | KeyError | IndexError | TypeError => true
  | _ => false
  end.

Module Scenario.

(** [E] with another outcome for reading [resume.txt]. *)
Definition with_resume (E : env) (r : outcome string) : env :=
  {| os_getenv := os_getenv E;
     requests_post := requests_post E;
     requests_version := requests_version E;
     json_loads_str := json_loads_str E;
     json_dumps := json_dumps E;
     py_repr := py_repr E;
     trafilatura_fetch_url := trafilatura_fetch_url E;
     trafilatura_extract := trafilatura_extract E;
     page_anchors := page_anchors E;
     urljoin := urljoin E;
     open_resume := r;
     current_timestamp := current_timestamp E |}.

Definition no_resume : env :=
  with_resume Example.sunny
    (Raised (Exn FileNotFoundError "[Errno 2] No such file or directory: 'resume.txt'")).

(** The service is down: status 503, with a body that would otherwise be
    a perfect reply. *)
Definition server_error : env :=
  Example.world (Some "sk-test") From_2_27 Example.one_link Example.posting
    (Returned {| status_code := 503; reason := "Service Unavailable";
                 text := Example.envelope (PStr (Json.dumps Example.full_analysis)) |}).

Definition offline : env :=
  Example.world (Some "sk-test") From_2_27 Example.one_link Example.posting
    (Raised (Exn ConnectionError "Max retries exceeded")).

(** The service answers with an empty list of choices. *)
Definition empty_choices : env :=
  Example.world (Some "sk-test") From_2_27 Example.one_link Example.posting
    (Example.ok (Json.dumps (PDict [("choices", PList [])]))).

(** The model answers with prose instead of JSON. *)
Definition prose : env :=
  Example.world (Some "sk-test") From_2_27 Example.one_link Example.posting
    (Example.ok (Example.envelope (PStr "Sure! Here is the analysis."))).

(** trafilatura cannot fetch anything. *)
Definition no_download : env :=
  Example.world (Some "sk-test") From_2_27 Example.listing_x
    (fun _ => Raised (Exn (OtherException "ValueError") "unknown url type"))
    (Example.ok (Example.envelope (PStr (Json.dumps Example.full_analysis)))).


(** A target [urljoin] rejects, after one it accepts. *)
Definition malformed_link : env :=
  Example.world (Some "sk-test") From_2_27
    (Returned [Some "https://x/jobs/2"; Some "//[/jobs/1"])
    Example.posting
    (Example.ok (Example.envelope (PStr (Json.dumps Example.full_analysis)))).

(** Both identifiers of the listing already have a row. *)
Definition seen_1_2 : list row :=
  [("https://x/jobs/1", 1762041600%Z); ("https://x/jobs/2", 1762041600%Z)].

End Scenario.

(** The iterations of [for url in new_job_urls] that are entered, each
    with the lines it leaves: the loop ends with the first iteration
    that raises. *)
Fixpoint iterations {A : Type} (body : A -> M unit) (l : list A) (t : list row)
  : list (A * list event) :=
  match l with
  | [] => []
  | x :: l' =>
      (x, log_of (body x t)) ::
      match result_of (body x t) with
      | Returned _ => iterations body l' (rows_of (body x t))
      | Raised _ => []
      end
  end.

(** An iteration of the main loop opens with the line that names its
    identifier. *)
Definition announced (it : string * list event) : Prop :=
  ∃ rest, it.2 = processing_line it.1 :: rest.

(** * Properties *)

Section Store.

Lemma String_eqb_true (a b : string) : Is_true (String.eqb a b) ↔ a = b.
Proof.
  rewrite Is_true_true. apply String.eqb_eq.
Qed.

Lemma select_url_all_equal url t x : x ∈ select_url url t → x = url.
Proof.
  unfold select_url. intros Hx.
  apply list_elem_of_fmap in Hx as [r [-> Hr]].
  apply list_elem_of_filter in Hr as [Hr _].
  by apply String_eqb_true in Hr.
Qed.

Lemma select_url_elem url t : url ∈ select_url url t ↔ url ∈ t.*1.
Proof.
  unfold select_url. rewrite !list_elem_of_fmap. split.
  - intros [r [-> Hr]]. apply list_elem_of_filter in Hr as [_ Hr]. eauto.
  - intros [r [-> Hr]]. exists r. split; [done|].
    apply list_elem_of_filter. split; [|done]. by apply String_eqb_true.
Qed.

Lemma fetchone_None url t : fetchone (select_url url t) = None ↔ url ∉ t.*1.
Proof.
  rewrite <- select_url_elem. unfold fetchone. split.
  - intros H Hin. destruct (select_url url t); [by apply not_elem_of_nil in Hin | done].
  - intros H. destruct (select_url url t) as [|x l] eqn:Hs; [done|]. exfalso.
    apply H. assert (x = url) as ->; [|by left].
    apply (select_url_all_equal url t). rewrite Hs. by left.
Qed.

Lemma fetchone_Some url t : is_Some (fetchone (select_url url t)) ↔ url ∈ t.*1.
Proof.
  destruct (decide (url ∈ t.*1)) as [Hin|Hnin].
  - split; [done|]. intros _. destruct (fetchone (select_url url t)) eqn:Hf; [eauto|].
    by apply fetchone_None in Hf.
  - apply fetchone_None in Hnin as Hf. rewrite Hf. split; [by intros [? ?]|done].
Qed.

Lemma is_url_new_true url t :
  fst (fst (is_url_new url t)) = Returned true ↔ url ∉ seen t.
Proof.
  unfold is_url_new, seen; simpl. rewrite elem_of_list_to_set, <- fetchone_None.
  destruct (fetchone (select_url url t)); split; congruence.
Qed.

Lemma is_url_new_false url t :
  fst (fst (is_url_new url t)) = Returned false ↔ url ∈ seen t.
Proof.
  unfold is_url_new, seen; simpl. rewrite elem_of_list_to_set, <- fetchone_Some.
  destruct (fetchone (select_url url t)); split; try congruence; eauto.
  by intros [? ?].
Qed.

Lemma not_seen_nil u : u ∉ seen [].
Proof. unfold seen. simpl. apply not_elem_of_empty. Qed.

Lemma select_url_app url t1 t2 :
  select_url url (t1 ++ t2) = select_url url t1 ++ select_url url t2.
Proof. unfold select_url. by rewrite filter_app, fmap_app. Qed.

Lemma records_of_fresh url t : url ∉ t.*1 → records_of url t = 0.
Proof.
  intros H. apply fetchone_None in H. unfold records_of, fetchone in *.
  by destruct (select_url url t).
Qed.

Lemma records_of_primary_key url t :
  primary_key t → url ∈ t.*1 → records_of url t = 1.
Proof.
  unfold primary_key, records_of. induction t as [|[u ts] t IH]; simpl.
  - intros _ H. by apply not_elem_of_nil in H.
  - intros Hnd Hin. apply NoDup_cons in Hnd as [Hu Hnd].
    unfold select_url. rewrite filter_cons. simpl.
    destruct (decide (Is_true (String.eqb u url))) as [He|He].
    + apply String_eqb_true in He as ->. simpl. f_equal.
      by apply (records_of_fresh url t).
    + apply IH; [done|]. apply elem_of_cons in Hin as [->|Hin]; [|done].
      exfalso. apply He. by apply String_eqb_true.
Qed.

Lemma add_url_to_db_fresh E url t :
  url ∉ t.*1 →
  add_url_to_db E url t = (Returned tt, t ++ [(url, current_timestamp E)], [Commit url]).
Proof. intros H. apply fetchone_None in H. unfold add_url_to_db. by rewrite H. Qed.

Lemma add_url_to_db_duplicate E url t :
  url ∈ t.*1 →
  add_url_to_db E url t =
    (Raised (Exn IntegrityError "UNIQUE constraint failed: seen_urls.url"), t, []).
Proof.
  intros H. apply fetchone_Some in H as [x Hx]. unfold add_url_to_db. by rewrite Hx.
Qed.

Lemma add_url_to_db_primary_key E url t :
  primary_key t → primary_key (snd (fst (add_url_to_db E url t))).
Proof.
  intros Hpk. destruct (decide (url ∈ t.*1)) as [Hin|Hnin].
  - by rewrite add_url_to_db_duplicate.
  - rewrite add_url_to_db_fresh by done. simpl. unfold primary_key.
    rewrite fmap_app. apply NoDup_app. split; [done|]. split.
    + intros x Hx Hx'. simpl in Hx'. apply list_elem_of_singleton in Hx' as ->. done.
    + simpl. apply NoDup_singleton.
Qed.

Lemma add_url_to_db_keeps E url u t :
  u ∈ t.*1 → u ∈ (snd (fst (add_url_to_db E url t))).*1.
Proof.
  intros Hu. destruct (decide (url ∈ t.*1)) as [Hin|Hnin].
  - by rewrite add_url_to_db_duplicate.
  - rewrite add_url_to_db_fresh by done. simpl. rewrite fmap_app.
    apply elem_of_app. by left.
Qed.

Lemma run_op_keeps E op u t : u ∈ t.*1 → u ∈ (run_op E op t).*1.
Proof.
  destruct op; simpl; try done. apply add_url_to_db_keeps.
Qed.

Lemma run_ops_keeps E ops u t : u ∈ t.*1 → u ∈ (run_ops E ops t).*1.
Proof.
  unfold run_ops. revert t. induction ops as [|op ops IH]; simpl; [done|].
  intros t Hu. apply IH. by apply run_op_keeps.
Qed.

Lemma run_ops_primary_key E ops t : primary_key t → primary_key (run_ops E ops t).
Proof.
  unfold run_ops. revert t. induction ops as [|op ops IH]; simpl; [done|].
  intros t Hpk. apply IH. destruct op; simpl; try done.
  by apply add_url_to_db_primary_key.
Qed.

End Store.

Section Discovery.

Context (E : env) (page : string).

Lemma collect_links_eq links acc t :
  collect_links E page links acc t =
    match first_failure E page links with
    | None => (Returned (acc ++ new_of E page t links), t, [])
    | Some e => (Raised e, t, [])
    end.
Proof.
  revert acc. induction links as [|href rest IH]; intros acc.
  - unfold new_of. simpl. by rewrite app_nil_r.
  - cbn [collect_links first_failure]. unfold new_of, resolved in *.
    cbn [omap list_omap]. unfold mbind at 1, M_bind at 1, lift_outcome.
    destruct (resolve E page href) as [[h|]|e]; cbn [fst snd app].
    + destruct (String.eqb h "") eqn:Hh; cbn [negb].
      * apply String.eqb_eq in Hh as ->. rewrite filter_cons_False by tauto.
        rewrite IH. by destruct (first_failure E page rest).
      * apply String.eqb_neq in Hh.
        unfold mbind at 1, M_bind at 1, is_url_new.
        destruct (fetchone (select_url h t)) eqn:Hf; cbn [fst snd app].
        -- assert (h ∈ t.*1) by (apply fetchone_Some; eauto).
           rewrite filter_cons_False by tauto. rewrite IH.
           by destruct (first_failure E page rest).
        -- apply fetchone_None in Hf.
           rewrite filter_cons_True by tauto. rewrite IH.
           destruct (first_failure E page rest); [done|].
           by rewrite <- app_assoc.
    + rewrite IH. by destruct (first_failure E page rest).
    + reflexivity.
Qed.

Lemma find_new_job_links_cases anchors t :
  page_anchors E page = Returned anchors →
  find_new_job_links E page t =
    match first_failure E page (filter (fun a => matches_locator a = true) anchors) with
    | None =>
        (Returned (unique (new_of E page t (filter (fun a => matches_locator a = true) anchors))),
         t, [Print ("Scraping " +:+ page +:+ " for job links...")])
    | Some e => (Raised e, t, [Print ("Scraping " +:+ page +:+ " for job links...")])
    end.
Proof.
  intros H. unfold find_new_job_links, mbind, M_bind, print, lift_outcome.
  rewrite H. cbn [fst snd app]. rewrite collect_links_eq.
  by destruct (first_failure E page _).
Qed.

Lemma find_new_job_links_eq anchors t :
  page_anchors E page = Returned anchors →
  resolvable E page anchors →
  find_new_job_links E page t =
    (Returned (unique (new_of E page t (filter (fun a => matches_locator a = true) anchors))),
     t, [Print ("Scraping " +:+ page +:+ " for job links...")]).
Proof.
  intros H Hr. rewrite (find_new_job_links_cases anchors t H).
  unfold resolvable in Hr. by rewrite Hr.
Qed.

Lemma find_new_job_links_unresolvable anchors e t :
  page_anchors E page = Returned anchors →
  first_failure E page (filter (fun a => matches_locator a = true) anchors) = Some e →
  find_new_job_links E page t =
    (Raised e, t, [Print ("Scraping " +:+ page +:+ " for job links...")]).
Proof.
  intros H Hr. rewrite (find_new_job_links_cases anchors t H). by rewrite Hr.
Qed.

Lemma find_new_job_links_raises e t :
  page_anchors E page = Raised e →
  find_new_job_links E page t =
    (Raised e, t, [Print ("Scraping " +:+ page +:+ " for job links...")]).
Proof.
  intros H. unfold find_new_job_links, mbind, M_bind, print, lift_outcome.
  by rewrite H.
Qed.

Lemma resolve_Some href :
  resolve E page (Some href) =
    if negb (String.eqb href "") && negb (String.prefix "http" href)
    then match urljoin E page href with
         | Returned joined => Returned (Some joined)
         | Raised e => Raised e
         end
    else Returned (Some href).
Proof.
  unfold resolve.
  destruct (negb (String.eqb href "") && negb (String.prefix "http" href)); [|done].
  unfold mbind, outcome_bind. by destruct (urljoin E page href).
Qed.



Lemma elem_of_unique u l : u ∈ unique l ↔ u ∈ l.
Proof. unfold unique. by rewrite elem_of_elements, elem_of_list_to_set. Qed.

Lemma NoDup_unique l : NoDup (unique l).
Proof. unfold unique. apply NoDup_elements. Qed.

Lemma elem_of_new_of u t links :
  u ∈ new_of E page t links ↔
  u ≠ "" ∧ (u ∉ t.*1) ∧ ∃ a, a ∈ links ∧ resolved E page a = Some u.
Proof.
  unfold new_of. rewrite list_elem_of_filter, list_elem_of_omap. tauto.
Qed.

Lemma elem_of_discovered u anchors :
  u ∈ discovered E page anchors ↔
  u ≠ "" ∧ ∃ a, a ∈ anchors ∧ matches_locator a = true ∧ resolved E page a = Some u.
Proof.
  unfold discovered.
  rewrite elem_of_list_to_set, list_elem_of_filter, list_elem_of_omap.
  split.
  - intros [Hu [a [Ha Hr]]]. apply list_elem_of_filter in Ha as [Hm Ha]. eauto.
  - intros [Hu [a [Ha [Hm Hr]]]]. split; [done|]. exists a. split; [|done].
    by apply list_elem_of_filter.
Qed.

Lemma matches_locator_nonempty href :
  matches_locator (Some href) = true → href ≠ "".
Proof. intros H ->. discriminate H. Qed.

Lemma resolve_matching href :
  matches_locator (Some href) = true →
  resolve E page (Some href) =
    match identifier_of E page href with
    | Returned u => Returned (Some u)
    | Raised e => Raised e
    end.
Proof.
  intros H. apply matches_locator_nonempty in H. apply String.eqb_neq in H.
  rewrite resolve_Some. unfold identifier_of. rewrite H. cbn [negb andb].
  by destruct (String.prefix "http" href).
Qed.

Lemma resolved_matching href u :
  matches_locator (Some href) = true →
  (resolved E page (Some href) = Some u ↔ identifier_of E page href = Returned u).
Proof.
  intros H. unfold resolved. rewrite (resolve_matching href H).
  destruct (identifier_of E page href); split; congruence.
Qed.

Lemma elem_of_unique_new_of u t anchors :
  u ∈ unique (new_of E page t (filter (fun a => matches_locator a = true) anchors)) ↔
  u ∈ discovered E page anchors ∖ seen t.
Proof.
  rewrite elem_of_unique, elem_of_new_of, elem_of_difference, elem_of_discovered.
  unfold seen. rewrite elem_of_list_to_set. split.
  - intros (Hu & Hn & a & Ha & Hr). apply list_elem_of_filter in Ha as [Hm Ha].
    split; [|done]. split; [done|]. by exists a.
  - intros ((Hu & a & Ha & Hm & Hr) & Hn). split; [done|]. split; [done|].
    exists a. split; [|done]. by apply list_elem_of_filter.
Qed.

End Discovery.

Section Analysis.

Context (E : env).

Lemma try_block_completed req v : try_block E req = Completed v ↔ delivered E req v.
Proof.
  unfold try_block, delivered. split.
  - destruct (requests_post E req) as [resp|] eqn:Hp; [|discriminate].
    destruct (raise_for_status (req_url req) resp) as [[]|] eqn:Hs; [|discriminate].
    destruct (response_json E resp ≫= unwrap_envelope) as [c|] eqn:Hj; [|discriminate].
    destruct (json_loads E c) as [v'|] eqn:Hl; [|discriminate].
    intros [= ->]. destruct c; try discriminate Hl. simpl in Hl. eauto 10.
  - intros (resp & s & Hp & Hs & Hj & Hl). rewrite Hp, Hs, Hj. simpl. by rewrite Hl.
Qed.

Lemma raise_for_status_2xx url resp :
  (200 ≤ status_code resp < 300)%Z → raise_for_status url resp = Returned tt.
Proof.
  intros H. unfold raise_for_status.
  destruct (400 <=? status_code resp)%Z eqn:H4; [apply Z.leb_le in H4; lia|].
  destruct (500 <=? status_code resp)%Z eqn:H5; [apply Z.leb_le in H5; lia|].
  reflexivity.
Qed.

Lemma analyze_posts_first job_text resume_text :
  ∃ rest,
    snd (analyze_with_deepseek E job_text resume_text)
      = Post (build_request E job_text resume_text) :: rest ∧
    Forall (fun ev => is_commit ev = false) rest.
Proof.
  unfold analyze_with_deepseek.
  destruct (try_block E _) as [v|rc e]; simpl; [eauto|].
  destruct (is_RequestException (exn_cls e)); simpl.
  { eexists. split; [reflexivity|]. by repeat constructor. }
  destruct (is_JSONDecodeError (exn_cls e)); simpl; [|eauto].
  destruct rc; simpl; [|eauto].
  eexists. split; [reflexivity|]. by repeat constructor.
Qed.

Lemma analyze_never_commits job_text resume_text :
  Forall (fun ev => is_commit ev = false) (snd (analyze_with_deepseek E job_text resume_text)).
Proof.
  destruct (analyze_posts_first job_text resume_text) as [rest [-> H]].
  by constructor.
Qed.

Lemma get_clean_text_never_commits url :
  Forall (fun ev => is_commit ev = false) (snd (get_clean_text_from_url E url)).
Proof.
  unfold get_clean_text_from_url.
  destruct (trafilatura_fetch_url E url ≫= trafilatura_extract E) as [c|e]; simpl; [done|].
  destruct (is_Exception (exn_cls e)); simpl; by repeat constructor.
Qed.

End Analysis.

(** ** Schema conformance (C1) *)

(** C1, as the code has it.  For every pair of input texts,
    [analyze_with_deepseek] returns either what [json.loads] decoded from
    the content of the reply, whatever its shape, with no check of fields,
    types or range (this when the call is answered with a status that is
    neither 4xx nor 5xx, the envelope unwraps to a string and that string
    decodes), or [None] (this when the [try] block is left by a
    [RequestException], or by a [JSONDecodeError] raised once
    [result_content] is assigned); it returns nothing else. *)
Theorem analyze_with_deepseek_returns_decoded_content
    (E : env) (job_text resume_text : string) (v : pyval) :
  fst (analyze_with_deepseek E job_text resume_text) = Returned v ↔
  delivered E (build_request E job_text resume_text) v ∨
  (v = PNone ∧
   ∃ rc e, try_block E (build_request E job_text resume_text) = Failed rc e ∧
     (is_RequestException (exn_cls e) = true ∨
      (is_JSONDecodeError (exn_cls e) = true ∧ is_Some rc))).
Proof.
  rewrite <- try_block_completed. unfold analyze_with_deepseek.
  destruct (try_block E _) as [v'|rc e]; simpl.
  - split; [intros [= ->]; by left|].
    intros [[= ->]|(_ & ? & ? & ? & _)]; [done|discriminate].
  - destruct (is_RequestException (exn_cls e)) eqn:Hr; simpl.
    { split; [intros [= <-]; right; eauto 10|].
      intros [?|[-> _]]; [discriminate|done]. }
    destruct (is_JSONDecodeError (exn_cls e)) eqn:Hj; simpl.
    + destruct rc as [c|]; simpl.
      * split; [intros [= <-]; right; eauto 10|].
        intros [?|[-> _]]; [discriminate|done].
      * split; [discriminate|].
        intros [?|(_ & rc' & e' & [= <- <-] & [H|[_ [? H]]])];
          [discriminate|congruence|discriminate].
    + split; [discriminate|].
      intros [?|(_ & rc' & e' & [= <- <-] & [H|[H _]])];
        [discriminate|congruence|congruence].
Qed.

Lemma analyze_with_deepseek_returns_decoded_content_example :
  fst (analyze_with_deepseek Example.sunny
         "Software engineering intern, compilers team." Example.resume)
    = Returned Example.full_analysis.
Proof.
  apply (analyze_with_deepseek_returns_decoded_content Example.sunny).
  left.
  exists {| status_code := 200; reason := "OK";
            text := Example.envelope (PStr (Json.dumps Example.full_analysis)) |},
         (Json.dumps Example.full_analysis).
  split; [reflexivity|]. split; [reflexivity|].
  split; vm_compute; reflexivity.
Defined.

(** The claim of C1 fails: the service answers with the object
    [{"match_score_10": 42}], and that object is what the function
    returns. *)
Lemma analyze_with_deepseek_off_schema :
  fst (analyze_with_deepseek Example.off_schema
         "Software engineering intern, compilers team." Example.resume)
    = Returned (PDict [("match_score_10", PInt 42)]) ∧
  ¬ schema_conformant
      (fst (analyze_with_deepseek Example.off_schema
              "Software engineering intern, compilers team." Example.resume)).
Proof.
  assert (fst (analyze_with_deepseek Example.off_schema
                 "Software engineering intern, compilers team." Example.resume)
            = Returned (PDict [("match_score_10", PInt 42)])) as H
    by (vm_compute; reflexivity).
  split; [exact H|]. rewrite H. intros [Hn|[v [Hv Hc]]].
  - discriminate Hn.
  - injection Hv as <-. vm_compute in Hc. discriminate Hc.
Qed.

(** ** The decode error of the response body (C10) *)

(** C10, as the code has it.  When the call is answered 2xx with a body
    that is not JSON, the decode error leaves the [try] block before
    [result_content] is assigned.  With requests before 2.27 the error is
    [json.JSONDecodeError] itself: the second handler runs, reads the
    unassigned [result_content], and the function raises
    [UnboundLocalError].  From requests 2.27 on the error is
    [requests.exceptions.JSONDecodeError], a [RequestException]: the first
    handler catches it and the function prints and returns [None]. *)
Theorem undecodable_body_by_requests_release
    (E : env) (job_text resume_text : string) (resp : response) (m : string) :
  requests_post E (build_request E job_text resume_text) = Returned resp →
  (200 ≤ status_code resp < 300)%Z →
  json_loads_str E (text resp) = Raised (Exn JSONDecodeError m) →
  (∃ e, try_block E (build_request E job_text resume_text) = Failed None e ∧
        is_JSONDecodeError (exn_cls e) = true) ∧
  match requests_version E with
  | Before_2_27 =>
      raises_NameError (fst (analyze_with_deepseek E job_text resume_text)) ∧
      snd (analyze_with_deepseek E job_text resume_text)
        = [Post (build_request E job_text resume_text)]
  | From_2_27 =>
      analyze_with_deepseek E job_text resume_text =
        (Returned PNone,
         [Post (build_request E job_text resume_text);
          Print ("Error calling Deepseek API: " +:+ m)])
  end.
Proof.
  intros Hp Hs Hj.
  assert (try_block E (build_request E job_text resume_text) =
          Failed None
            (Exn (match requests_version E with
                  | Before_2_27 => JSONDecodeError
                  | From_2_27 => RequestsJSONDecodeError
                  end) m)) as Ht.
  { unfold try_block. rewrite Hp, (raise_for_status_2xx _ _ Hs).
    unfold response_json. rewrite Hj.
    by destruct (requests_version E). }
  split.
  - eexists. split; [exact Ht|]. by destruct (requests_version E).
  - unfold analyze_with_deepseek, raises_NameError. rewrite Ht.
    destruct (requests_version E); simpl; [|done].
    split; [|done]. eexists. split; reflexivity.
Qed.

Lemma undecodable_body_by_requests_release_example :
  raises_NameError
    (fst (analyze_with_deepseek (Example.html_body Before_2_27) "job" "resume")) ∧
  fst (analyze_with_deepseek (Example.html_body From_2_27) "job" "resume")
    = Returned PNone.
Proof.
  split.
  - apply (undecodable_body_by_requests_release (Example.html_body Before_2_27)
             "job" "resume"
             {| status_code := 200; reason := "OK"; text := "<html>Bad gateway</html>" |}
             "Expecting value");
      [reflexivity | simpl; lia | reflexivity].
  - pose proof (undecodable_body_by_requests_release (Example.html_body From_2_27)
                  "job" "resume"
                  {| status_code := 200; reason := "OK"; text := "<html>Bad gateway</html>" |}
                  "Expecting value" eq_refl ltac:(simpl; lia) eq_refl) as [_ H].
    simpl in H. by rewrite H.
Defined.

(** The claim of C10 fails with a current requests: the body is not JSON,
    the status is 200, and the function returns [None]. *)
Lemma undecodable_body_returns_None :
  requests_post (Example.html_body From_2_27)
      (build_request (Example.html_body From_2_27) "job" "resume")
    = Returned {| status_code := 200; reason := "OK"; text := "<html>Bad gateway</html>" |} ∧
  json_loads_str (Example.html_body From_2_27) "<html>Bad gateway</html>"
    = Raised (Exn JSONDecodeError "Expecting value") ∧
  fst (analyze_with_deepseek (Example.html_body From_2_27) "job" "resume")
    = Returned PNone ∧
  ¬ raises_NameError
      (fst (analyze_with_deepseek (Example.html_body From_2_27) "job" "resume")).
Proof.
  assert (fst (analyze_with_deepseek (Example.html_body From_2_27) "job" "resume")
            = Returned PNone) as H by (vm_compute; reflexivity).
  split; [reflexivity|]. split; [vm_compute; reflexivity|]. split; [exact H|].
  rewrite H. intros [e [He _]]. discriminate He.
Qed.

Section Loop.

Context (E : env) (my_resume : string).

Lemma get_clean_text_result url :
  fst (get_clean_text_from_url E url) =
    match trafilatura_fetch_url E url ≫= trafilatura_extract E with
    | Returned clean_text => Returned clean_text
    | Raised e => if is_Exception (exn_cls e) then Returned None else Raised e
    end.
Proof.
  unfold get_clean_text_from_url.
  destruct (trafilatura_fetch_url E url ≫= trafilatura_extract E) as [c|e]; [done|].
  by destruct (is_Exception (exn_cls e)).
Qed.

(** The five ways through the loop body. *)

Lemma process_url_extraction_raises url t e :
  fst (get_clean_text_from_url E url) = Raised e →
  process_url E my_resume url t =
    (Raised e, t, processing_line url :: snd (get_clean_text_from_url E url)).
Proof.
  intros H. unfold process_url, mbind, M_bind, print, lift. by rewrite H.
Qed.

Lemma process_url_no_text url t clean_text :
  fst (get_clean_text_from_url E url) = Returned clean_text →
  truthy_str clean_text = false →
  process_url E my_resume url t =
    (Returned tt, t, processing_line url :: snd (get_clean_text_from_url E url)).
Proof.
  intros H Hf. rewrite <- (app_nil_r (snd (get_clean_text_from_url E url))).
  unfold process_url, mbind, M_bind, print, lift. rewrite H.
  destruct clean_text as [text|]; [|done]. simpl in Hf.
  apply negb_false_iff in Hf. by rewrite Hf.
Qed.

Lemma process_url_analysis_raises url t text e :
  fst (get_clean_text_from_url E url) = Returned (Some text) →
  text ≠ "" →
  fst (analyze_with_deepseek E text my_resume) = Raised e →
  process_url E my_resume url t =
    (Raised e, t,
     processing_line url :: snd (get_clean_text_from_url E url) ++
       snd (analyze_with_deepseek E text my_resume)).
Proof.
  intros H Hne Ha. unfold process_url, mbind, M_bind, print, lift. rewrite H.
  apply String.eqb_neq in Hne. rewrite Hne. simpl. by rewrite Ha.
Qed.

Lemma process_url_no_analysis url t text analysis :
  fst (get_clean_text_from_url E url) = Returned (Some text) →
  text ≠ "" →
  fst (analyze_with_deepseek E text my_resume) = Returned analysis →
  truthy analysis = false →
  process_url E my_resume url t =
    (Returned tt, t,
     processing_line url :: snd (get_clean_text_from_url E url) ++
       snd (analyze_with_deepseek E text my_resume)).
Proof.
  intros H Hne Ha Hf. rewrite <- (app_nil_r (snd (analyze_with_deepseek E text my_resume))).
  unfold process_url, mbind, M_bind, print, lift. rewrite H.
  apply String.eqb_neq in Hne. rewrite Hne. simpl. by rewrite Ha, Hf.
Qed.

Lemma process_url_saved url t text a :
  fst (get_clean_text_from_url E url) = Returned (Some text) →
  text ≠ "" →
  fst (analyze_with_deepseek E text my_resume) = Returned a →
  truthy a = true →
  url ∉ seen t →
  process_url E my_resume url t =
    (Returned tt, t ++ [(url, current_timestamp E)],
     processing_line url :: snd (get_clean_text_from_url E url) ++
       snd (analyze_with_deepseek E text my_resume) ++
       [Print "Analysis complete:"; Print (json_dumps E a); Commit url; saved_line url]).
Proof.
  intros H Hne Ha Ht Hs. unfold process_url, mbind, M_bind, print, lift. rewrite H.
  apply String.eqb_neq in Hne. rewrite Hne. simpl. rewrite Ha, Ht.
  unfold seen in Hs. rewrite elem_of_list_to_set in Hs.
  by rewrite (add_url_to_db_fresh E url t Hs).
Qed.

Lemma process_url_duplicate url t text a :
  fst (get_clean_text_from_url E url) = Returned (Some text) →
  text ≠ "" →
  fst (analyze_with_deepseek E text my_resume) = Returned a →
  truthy a = true →
  url ∈ seen t →
  process_url E my_resume url t =
    (Raised (Exn IntegrityError "UNIQUE constraint failed: seen_urls.url"), t,
     processing_line url :: snd (get_clean_text_from_url E url) ++
       snd (analyze_with_deepseek E text my_resume) ++
       [Print "Analysis complete:"; Print (json_dumps E a)]).
Proof.
  intros H Hne Ha Ht Hs. unfold process_url, mbind, M_bind, print, lift. rewrite H.
  apply String.eqb_neq in Hne. rewrite Hne. simpl. rewrite Ha, Ht.
  unfold seen in Hs. rewrite elem_of_list_to_set in Hs.
  by rewrite (add_url_to_db_duplicate E url t Hs).
Qed.

(** Whatever happens, the loop body leaves the rows alone or appends the
    row of its own identifier. *)
Lemma process_url_rows url t :
  rows_of (process_url E my_resume url t) = t ∨
  ((url ∉ seen t) ∧
   rows_of (process_url E my_resume url t) = t ++ [(url, current_timestamp E)]).
Proof.
  destruct (fst (get_clean_text_from_url E url)) as [[text|]|e] eqn:H.
  - destruct (decide (text = "")) as [->|Hne].
    { left. by rewrite (process_url_no_text url t (Some "")). }
    destruct (fst (analyze_with_deepseek E text my_resume)) as [a|e] eqn:Ha.
    + destruct (truthy a) eqn:Ht.
      * destruct (decide (url ∈ seen t)) as [Hs|Hs].
        -- left. by rewrite (process_url_duplicate url t text a).
        -- right. split; [done|]. by rewrite (process_url_saved url t text a).
      * left. by rewrite (process_url_no_analysis url t text a).
    + left. by rewrite (process_url_analysis_raises url t text e).
  - left. by rewrite (process_url_no_text url t None).
  - left. by rewrite (process_url_extraction_raises url t e).
Qed.

Lemma for_each_cons {A : Type} (body : A → M unit) x l t :
  for_each body (x :: l) t =
    match body x t with
    | (Returned _, t1, l1) => prepend_log l1 (for_each body l t1)
    | (Raised e, t1, l1) => (Raised e, t1, l1)
    end.
Proof.
  simpl. unfold mbind, M_bind, prepend_log, result_of, rows_of, log_of.
  destruct (body x t) as [[[u|e] t1] l1]; [|done].
  by destruct (for_each body l t1) as [[r t2] l2].
Qed.

Lemma main_eq anchors t :
  open_resume E = Returned my_resume →
  page_anchors E TARGET_URL = Returned anchors →
  resolvable E TARGET_URL anchors →
  main E t =
    let new_job_urls :=
      unique (new_of E TARGET_URL t (filter (fun a => matches_locator a = true) anchors)) in
    prepend_log [scraping_line TARGET_URL; found_line (length new_job_urls)]
      (for_each (process_url E my_resume) new_job_urls t).
Proof.
  intros Hr Hp Hv. unfold main, setup_database, lift_outcome, print.
  unfold mbind at 1 2 3 4, M_bind. rewrite Hr.
  rewrite (find_new_job_links_eq E TARGET_URL anchors t Hp Hv).
  unfold prepend_log, result_of, rows_of, log_of. simpl.
  by destruct (for_each _ _ t) as [[r t2] l2].
Qed.

Lemma main_unresolvable anchors e t :
  open_resume E = Returned my_resume →
  page_anchors E TARGET_URL = Returned anchors →
  first_failure E TARGET_URL (filter (fun a => matches_locator a = true) anchors) = Some e →
  main E t = (Raised e, t, [scraping_line TARGET_URL]).
Proof.
  intros Hr Hp Hv. unfold main, setup_database, lift_outcome, print.
  unfold mbind at 1 2 3, M_bind. rewrite Hr.
  by rewrite (find_new_job_links_unresolvable E TARGET_URL anchors e t Hp Hv).
Qed.

Lemma main_cases anchors t :
  open_resume E = Returned my_resume →
  page_anchors E TARGET_URL = Returned anchors →
  main E t =
    match first_failure E TARGET_URL (filter (fun a => matches_locator a = true) anchors) with
    | None =>
        let new_job_urls :=
          unique (new_of E TARGET_URL t
                    (filter (fun a => matches_locator a = true) anchors)) in
        prepend_log [scraping_line TARGET_URL; found_line (length new_job_urls)]
          (for_each (process_url E my_resume) new_job_urls t)
    | Some e => (Raised e, t, [scraping_line TARGET_URL])
    end.
Proof.
  intros Hr Hp.
  destruct (first_failure E TARGET_URL _) as [e|] eqn:Hf.
  - by apply (main_unresolvable anchors e t).
  - by apply (main_eq anchors t).
Qed.

Lemma main_page_raises e t :
  open_resume E = Returned my_resume →
  page_anchors E TARGET_URL = Raised e →
  main E t = (Raised e, t, [scraping_line TARGET_URL]).
Proof.
  intros Hr Hp. unfold main, setup_database, lift_outcome, print.
  unfold mbind at 1 2 3, M_bind. rewrite Hr.
  by rewrite (find_new_job_links_raises E TARGET_URL e t Hp).
Qed.

Lemma log_of_prepend_log {A : Type} l (r : outcome A * list row * list event) :
  log_of (prepend_log l r) = l ++ log_of r.
Proof. reflexivity. Qed.

Lemma result_of_prepend_log {A : Type} l (r : outcome A * list row * list event) :
  result_of (prepend_log l r) = result_of r.
Proof. reflexivity. Qed.

Lemma for_each_log {A : Type} (body : A → M unit) l t :
  log_of (for_each body l t) = concat (iterations body l t).*2.
Proof.
  revert t. induction l as [|x l IH]; intros t; [done|].
  rewrite for_each_cons. cbn [iterations fmap list_fmap concat snd].
  unfold result_of, rows_of, log_of in *.
  destruct (body x t) as [[[u|e] t1] l1]; cbn [fst snd].
  - unfold prepend_log, log_of. cbn [fst snd]. by rewrite IH.
  - cbn [list_fmap concat]. by rewrite app_nil_r.
Qed.

Lemma iterations_prefix {A : Type} (body : A → M unit) l t :
  (iterations body l t).*1 `prefix_of` l.
Proof.
  revert t. induction l as [|x l IH]; intros t; [done|].
  cbn [iterations fmap list_fmap fst].
  destruct (result_of (body x t)).
  - apply prefix_cons, IH.
  - apply prefix_cons, prefix_nil.
Qed.

Lemma iterations_returned {A : Type} (body : A → M unit) l t :
  result_of (for_each body l t) = Returned tt → (iterations body l t).*1 = l.
Proof.
  revert t. induction l as [|x l IH]; intros t; [done|].
  rewrite for_each_cons. cbn [iterations fmap list_fmap fst].
  unfold result_of, rows_of in *.
  destruct (body x t) as [[[u|e] t1] l1]; cbn [fst snd]; [|done].
  unfold prepend_log, result_of. cbn [fst snd]. intros H. f_equal. by apply IH.
Qed.

Lemma process_url_announces url t :
  ∃ rest, log_of (process_url E my_resume url t) = processing_line url :: rest.
Proof.
  unfold process_url. unfold mbind at 1, M_bind at 1, print, processing_line, log_of.
  match goal with
  | |- context [mbind ?k ?m t] => destruct (mbind k m t) as [[r t'] l']
  end.
  cbn [fst snd app]. eauto.
Qed.

Lemma iterations_announced l t :
  Forall announced (iterations (process_url E my_resume) l t).
Proof.
  revert t. induction l as [|x l IH]; intros t; cbn [iterations]; [constructor|].
  constructor.
  - apply process_url_announces.
  - destruct (result_of (process_url E my_resume x t)); [apply IH|constructor].
Qed.

Lemma entered_is_logged l t u :
  u ∈ (iterations (process_url E my_resume) l t).*1 →
  processing_line u ∈ concat (iterations (process_url E my_resume) l t).*2.
Proof.
  intros Hu. apply list_elem_of_fmap in Hu as [[v lg] [-> Hin]].
  pose proof (iterations_announced l t) as Hall.
  rewrite Forall_forall in Hall. destruct (Hall _ Hin) as [rest Hrest].
  cbn [fst snd] in *. subst lg.
  apply list_elem_of_In, in_concat. exists (processing_line v :: rest). split.
  - apply list_elem_of_In, list_elem_of_fmap. by exists (v, processing_line v :: rest).
  - by left.
Qed.

Lemma main_log anchors t :
  open_resume E = Returned my_resume →
  page_anchors E TARGET_URL = Returned anchors →
  resolvable E TARGET_URL anchors →
  let new_job_urls :=
    unique (new_of E TARGET_URL t (filter (fun a => matches_locator a = true) anchors)) in
  log_of (main E t) =
    scraping_line TARGET_URL :: found_line (length new_job_urls) ::
    concat (iterations (process_url E my_resume) new_job_urls t).*2.
Proof.
  intros Hr Hp Hv. rewrite (main_eq anchors t Hr Hp Hv). cbn zeta.
  by rewrite log_of_prepend_log, for_each_log.
Qed.

End Loop.

(** ** Novelty filter (C3) *)

(** C3, as the code has it.  Whatever anchors the target page shows and
    whatever rows the Seen-Store holds: when [urljoin] accepts every
    selected target, the identifiers [find_new_job_links] returns are, as
    a set, the discovered identifiers minus those for which [is_url_new]
    answers [False], without repetition, and the store is left as it was.
    The run enters its loop with these identifiers one after the other,
    each iteration opening with the line that names its identifier, and
    stops with the first iteration that raises: the identifiers it
    processes are a prefix of that list, a subset of discovered minus
    seen, and all of them when the run ends normally.  When [urljoin]
    rejects a selected target, discovery and the run end with its
    exception and nothing is processed. *)
Theorem run_processes_a_prefix_of_discovered_minus_seen
    (E : env) (page : string) (anchors : list (option string)) (t : list row) :
  page_anchors E page = Returned anchors →
  (resolvable E page anchors →
   ∃ new_job_urls : list string,
     result_of (find_new_job_links E page t) = Returned new_job_urls ∧
     rows_of (find_new_job_links E page t) = t ∧
     NoDup new_job_urls ∧
     (list_to_set new_job_urls : gset string) = discovered E page anchors ∖ seen t ∧
     (∀ u, u ∈ seen t ↔ result_of (is_url_new u t) = Returned false) ∧
     (∀ my_resume, page = TARGET_URL → open_resume E = Returned my_resume →
        let entered := iterations (process_url E my_resume) new_job_urls t in
        log_of (main E t) =
          scraping_line TARGET_URL :: found_line (length new_job_urls) ::
          concat entered.*2 ∧
        Forall announced entered ∧
        entered.*1 `prefix_of` new_job_urls ∧
        (list_to_set entered.*1 : gset string) ⊆ discovered E page anchors ∖ seen t ∧
        (∀ u, u ∈ entered.*1 → processing_line u ∈ log_of (main E t)) ∧
        (result_of (main E t) = Returned tt → entered.*1 = new_job_urls))) ∧
  (∀ e,
     first_failure E page (filter (fun a => matches_locator a = true) anchors) = Some e →
     find_new_job_links E page t = (Raised e, t, [scraping_line page]) ∧
     (∀ my_resume, page = TARGET_URL → open_resume E = Returned my_resume →
        main E t = (Raised e, t, [scraping_line TARGET_URL]))).
Proof.
  intros H. split.
  - intros Hv. eexists. rewrite (find_new_job_links_eq E page anchors t H Hv).
    split; [reflexivity|]. split; [reflexivity|]. split; [apply NoDup_unique|].
    assert ((list_to_set
               (unique (new_of E page t (filter (fun a => matches_locator a = true) anchors)))
             : gset string) = discovered E page anchors ∖ seen t) as Hset.
    { apply set_eq. intros u. rewrite elem_of_list_to_set.
      apply elem_of_unique_new_of. }
    split; [exact Hset|]. split.
    + intros u. symmetry. apply is_url_new_false.
    + intros my_resume -> Hr. cbn zeta. split; [|split; [|split; [|split; [|split]]]].
      * by apply (main_log E my_resume anchors t).
      * apply iterations_announced.
      * apply iterations_prefix.
      * rewrite <- Hset. intros u. rewrite !elem_of_list_to_set.
        intros Hu. destruct (iterations_prefix (process_url E my_resume)
                     (unique (new_of E TARGET_URL t
                                (filter (fun a => matches_locator a = true) anchors))) t)
          as [k Hk].
        rewrite Hk. apply elem_of_app. by left.
      * intros u Hu. rewrite (main_log E my_resume anchors t Hr H Hv). cbn zeta.
        right. right. by apply entered_is_logged.
      * rewrite (main_eq E my_resume anchors t Hr H Hv). cbn zeta.
        rewrite result_of_prepend_log. apply iterations_returned.
  - intros e He. split.
    + by apply (find_new_job_links_unresolvable E page anchors e t).
    + intros my_resume -> Hr. by apply (main_unresolvable E my_resume anchors e t).
Qed.

(** The scenario of C3: with [https://x/jobs/1] seen and a page that shows
    [https://x/jobs/1] and [https://x/jobs/2], exactly [https://x/jobs/2]
    is processed. *)
Lemma scenario_seen_1_discovered_1_2 :
  seen Example.seen_1 = {[ "https://x/jobs/1" ]} ∧
  discovered Example.sunny TARGET_URL
    [Some "https://x/jobs/1"; Some "https://x/jobs/2"]
    = {[ "https://x/jobs/1"; "https://x/jobs/2" ]} ∧
  result_of (find_new_job_links Example.sunny TARGET_URL Example.seen_1)
    = Returned ["https://x/jobs/2"] ∧
  (iterations (process_url Example.sunny Example.resume)
     ["https://x/jobs/2"] Example.seen_1).*1 = ["https://x/jobs/2"] ∧
  processing_line "https://x/jobs/2" ∈ log_of (main Example.sunny Example.seen_1).
Proof.
  assert (resolvable Example.sunny TARGET_URL
            [Some "https://x/jobs/1"; Some "https://x/jobs/2"]) as Hv
    by (vm_compute; reflexivity).
  destruct (run_processes_a_prefix_of_discovered_minus_seen
              Example.sunny TARGET_URL
              [Some "https://x/jobs/1"; Some "https://x/jobs/2"]
              Example.seen_1 eq_refl)
    as [Hrun _].
  destruct (Hrun Hv) as (l & Hl & _ & _ & _ & _ & Hmain).
  assert (l = ["https://x/jobs/2"]) as ->.
  { assert (result_of (find_new_job_links Example.sunny TARGET_URL Example.seen_1)
            = Returned ["https://x/jobs/2"]) as Hc by (vm_compute; reflexivity).
    rewrite Hc in Hl. by injection Hl. }
  destruct (Hmain Example.resume eq_refl eq_refl) as (_ & _ & _ & _ & Hlogged & Hall).
  assert (result_of (main Example.sunny Example.seen_1) = Returned tt) as Hret
    by (vm_compute; reflexivity).
  split; [vm_compute; reflexivity|]. split; [vm_compute; reflexivity|].
  split; [exact Hl|]. split.
  - exact (Hall Hret).
  - apply Hlogged. rewrite (Hall Hret). by left.
Defined.

(** The claim of C3 fails for the identifiers the run processes.  Two
    identifiers are discovered, neither is seen, and the service answers
    200 with a body without ["choices"]: the [KeyError] of the first
    iteration ends the run, and an identifier of discovered minus seen
    is never processed. *)
Lemma aborted_run_skips_new_identifiers :
  page_anchors Example.no_choices TARGET_URL
    = Returned [Some "https://x/jobs/1"; Some "https://x/jobs/2"] ∧
  resolvable Example.no_choices TARGET_URL
    [Some "https://x/jobs/1"; Some "https://x/jobs/2"] ∧
  result_of (main Example.no_choices []) = Raised (Exn KeyError "choices") ∧
  ∃ u new_job_urls,
    result_of (find_new_job_links Example.no_choices TARGET_URL []) = Returned new_job_urls ∧
    u ∈ discovered Example.no_choices TARGET_URL
          [Some "https://x/jobs/1"; Some "https://x/jobs/2"] ∖ seen [] ∧
    u ∈ new_job_urls ∧
    (u ∉ (iterations (process_url Example.no_choices Example.resume) new_job_urls []).*1) ∧
    processing_line u ∉ log_of (main Example.no_choices []).
Proof.
  split; [reflexivity|]. split; [vm_compute; reflexivity|].
  split; [vm_compute; reflexivity|].
  exists "https://x/jobs/2", ["https://x/jobs/1"; "https://x/jobs/2"].
  split; [vm_compute; reflexivity|]. split; [|split; [|split]].
  - apply elem_of_difference. split.
    + apply elem_of_discovered. split; [discriminate|].
      exists (Some "https://x/jobs/2"). split; [by right; left|].
      split; vm_compute; reflexivity.
    + apply not_seen_nil.
  - by right; left.
  - assert ((iterations (process_url Example.no_choices Example.resume)
               ["https://x/jobs/1"; "https://x/jobs/2"] []).*1 = ["https://x/jobs/1"]) as ->
      by (vm_compute; reflexivity).
    intros H. apply elem_of_cons in H as [H|H]; [discriminate H|].
    by apply not_elem_of_nil in H.
  - assert (log_of (main Example.no_choices []) =
            [scraping_line TARGET_URL; found_line 2; processing_line "https://x/jobs/1";
             Post (build_request Example.no_choices
                     "Software engineering intern, compilers team." Example.resume)]) as ->
      by (vm_compute; reflexivity).
    intros H. repeat (apply elem_of_cons in H as [H|H]; [discriminate H|]).
    by apply not_elem_of_nil in H.
Qed.

(** ** Absolute resolution (C8) *)




(** ** Order of reporting and persisting (C4) *)




(** ** Failure of discovery (C5) *)

(** C5, as the code has it.  If the listing page cannot be loaded, the
    exception of the browser leaves [find_new_job_links] and the script
    uncaught: the run ends with that exception right after the
    ["Scraping ..."] line, without a count of links and without touching
    the store. *)
Theorem discovery_failure_ends_the_run
    (E : env) (my_resume : string) (e : exn) (t : list row) :
  open_resume E = Returned my_resume →
  page_anchors E TARGET_URL = Raised e →
  main E t = (Raised e, t, [scraping_line TARGET_URL]).
Proof. apply main_page_raises. Qed.

Lemma discovery_failure_ends_the_run_example :
  main Example.page_down Example.seen_1 =
    (Raised (Exn PlaywrightError "Page.goto: Timeout 30000ms exceeded."),
     Example.seen_1, [scraping_line TARGET_URL]).
Proof.
  apply (discovery_failure_ends_the_run Example.page_down Example.resume); reflexivity.
Defined.

(** The claim of C5 fails: with a page that times out the run does not
    end normally and prints no count of links. *)
Lemma discovery_failure_is_not_handled :
  page_anchors Example.page_down TARGET_URL
    = Raised (Exn PlaywrightError "Page.goto: Timeout 30000ms exceeded.") ∧
  result_of (main Example.page_down [])
    = Raised (Exn PlaywrightError "Page.goto: Timeout 30000ms exceeded.") ∧
  ¬ exits_with_zero_links (main Example.page_down []).
Proof.
  assert (result_of (main Example.page_down [])
            = Raised (Exn PlaywrightError "Page.goto: Timeout 30000ms exceeded.")) as H
    by (vm_compute; reflexivity).
  split; [reflexivity|]. split; [exact H|].
  intros [Hr _]. rewrite H in Hr. discriminate Hr.
Qed.

(** ** The missing credential (C9) *)

(** C9, as the code has it.  When the credential variable is not set,
    nothing is checked at startup: the run goes through discovery and the
    loop as with any other value (it ends in discovery only when
    [urljoin] rejects a selected target, as with any other value), and
    every request of [analyze_with_deepseek] is sent, with the header
    [Authorization: Bearer None]. *)
Theorem missing_credential_is_sent_as_None (E : env) :
  os_getenv E "DEEPSEEK_API_KEY" = None →
  (∀ job_text resume_text, ∃ rest,
     snd (analyze_with_deepseek E job_text resume_text)
       = Post (build_request E job_text resume_text) :: rest ∧
     authorization (build_request E job_text resume_text) = Some "Bearer None") ∧
  (∀ my_resume anchors t,
     open_resume E = Returned my_resume →
     page_anchors E TARGET_URL = Returned anchors →
     main E t =
       match first_failure E TARGET_URL
               (filter (fun a => matches_locator a = true) anchors) with
       | None =>
           let new_job_urls :=
             unique (new_of E TARGET_URL t
                       (filter (fun a => matches_locator a = true) anchors)) in
           prepend_log [scraping_line TARGET_URL; found_line (length new_job_urls)]
             (for_each (process_url E my_resume) new_job_urls t)
       | Some e => (Raised e, t, [scraping_line TARGET_URL])
       end).
Proof.
  intros Hk. split.
  - intros job_text resume_text.
    destruct (analyze_posts_first E job_text resume_text) as [rest [Hrest _]].
    exists rest. split; [exact Hrest|].
    unfold authorization, build_request, DEEPSEEK_API_KEY. simpl. rewrite Hk.
    reflexivity.
  - intros my_resume anchors t. apply main_cases.
Qed.

Lemma missing_credential_is_sent_as_None_example :
  ∃ rest,
    snd (analyze_with_deepseek Example.no_key "job" "resume")
      = Post (build_request Example.no_key "job" "resume") :: rest ∧
    authorization (build_request Example.no_key "job" "resume") = Some "Bearer None".
Proof.
  apply (missing_credential_is_sent_as_None Example.no_key). reflexivity.
Defined.

(** The claim of C9 fails: without the variable the run ends normally,
    after a request that carries [Bearer None]. *)
Lemma missing_credential_does_not_fail :
  os_getenv Example.no_key "DEEPSEEK_API_KEY" = None ∧
  result_of (main Example.no_key []) = Returned tt ∧
  Post (build_request Example.no_key
          "Software engineering intern, compilers team." Example.resume)
    ∈ log_of (main Example.no_key []) ∧
  ¬ fails_fast (main Example.no_key []).
Proof.
  assert (result_of (main Example.no_key []) = Returned tt) as H
    by (vm_compute; reflexivity).
  split; [reflexivity|]. split; [exact H|]. split.
  - assert (log_of (main Example.no_key []) !! 3 =
            Some (Post (build_request Example.no_key
                    "Software engineering intern, compilers team." Example.resume))) as H3
      by (vm_compute; reflexivity).
    by apply list_elem_of_lookup_2 in H3.
  - intros [[e He] _]. rewrite H in He. discriminate He.
Qed.

Section Retry.

Context (E : env) (my_resume : string).

Lemma find_new_job_links_presents page anchors t href url :
  page_anchors E page = Returned anchors →
  resolvable E page anchors →
  Some href ∈ anchors →
  matches_locator (Some href) = true →
  identifier_of E page href = Returned url →
  url ≠ "" →
  url ∉ seen t →
  ∃ l, result_of (find_new_job_links E page t) = Returned l ∧ url ∈ l.
Proof.
  intros Hp Hv Hin Hm Hid Hne Hs.
  rewrite (find_new_job_links_eq E page anchors t Hp Hv).
  eexists. split; [reflexivity|].
  apply elem_of_unique, elem_of_new_of. split; [done|]. split.
  - unfold seen in Hs. by rewrite elem_of_list_to_set in Hs.
  - exists (Some href). split; [by apply list_elem_of_filter|].
    by apply resolved_matching.
Qed.

Lemma seen_app_singleton url ts t : url ∈ seen (t ++ [(url, ts)]).
Proof.
  unfold seen. rewrite elem_of_list_to_set, fmap_app. apply elem_of_app. right.
  simpl. by left.
Qed.

Lemma process_url_records url t :
  url ∉ seen t →
  url ∈ seen (rows_of (process_url E my_resume url t)) ↔
  ∃ text a,
    fst (get_clean_text_from_url E url) = Returned (Some text) ∧
    text ≠ "" ∧
    fst (analyze_with_deepseek E text my_resume) = Returned a ∧
    truthy a = true.
Proof.
  intros Hs. split.
  - intros Hin.
    destruct (fst (get_clean_text_from_url E url)) as [[text|]|e] eqn:H.
    + destruct (decide (text = "")) as [->|Hne].
      { by rewrite (process_url_no_text E my_resume url t (Some "")) in Hin. }
      destruct (fst (analyze_with_deepseek E text my_resume)) as [a|e] eqn:Ha.
      * destruct (truthy a) eqn:Ht; [eauto 10|].
        by rewrite (process_url_no_analysis E my_resume url t text a) in Hin.
      * by rewrite (process_url_analysis_raises E my_resume url t text e) in Hin.
    + by rewrite (process_url_no_text E my_resume url t None) in Hin.
    + by rewrite (process_url_extraction_raises E my_resume url t e) in Hin.
  - intros (text & a & H & Hne & Ha & Ht).
    rewrite (process_url_saved E my_resume url t text a H Hne Ha Ht Hs).
    apply seen_app_singleton.
Qed.

Lemma contained_returns url t :
  contained E my_resume url →
  ∃ l, process_url E my_resume url t = (Returned tt, t, l) ∧
       Forall (fun ev => is_commit ev = false) l.
Proof.
  assert (∀ text, Forall (fun ev => is_commit ev = false)
            (processing_line url :: snd (get_clean_text_from_url E url) ++
               snd (analyze_with_deepseek E text my_resume))) as Hlog.
  { intros text. constructor; [done|]. apply Forall_app.
    split; [apply get_clean_text_never_commits | apply analyze_never_commits]. }
  assert (Forall (fun ev => is_commit ev = false)
            (processing_line url :: snd (get_clean_text_from_url E url))) as Hlog'.
  { constructor; [done | apply get_clean_text_never_commits]. }
  pose proof (get_clean_text_result E url) as Hg.
  intros [e He Hx | clean_text He Hf | text rc e He Hne Ht Hr | text c e He Hne Ht Hj];
    rewrite He in Hg.
  - rewrite Hx in Hg. eexists. split; [|exact Hlog'].
    by apply (process_url_no_text E my_resume url t None).
  - eexists. split; [|exact Hlog'].
    by apply (process_url_no_text E my_resume url t clean_text).
  - eexists. split; [|exact (Hlog text)].
    apply (process_url_no_analysis E my_resume url t text PNone); try done.
    unfold analyze_with_deepseek. by rewrite Ht, Hr.
  - eexists. split; [|exact (Hlog text)].
    apply (process_url_no_analysis E my_resume url t text PNone); try done.
    unfold analyze_with_deepseek. rewrite Ht, Hj.
    by destruct (is_RequestException (exn_cls e)).
Qed.

Lemma for_each_rows l t u :
  u ∈ seen (rows_of (for_each (process_url E my_resume) l t)) → u ∈ seen t ∨ u ∈ l.
Proof.
  revert t. induction l as [|x l IH]; intros t; [by left|].
  rewrite for_each_cons.
  pose proof (process_url_rows E my_resume x t) as Hrows.
  destruct (process_url E my_resume x t) as [[[[]|e] t1] l1] eqn:Hp;
    unfold rows_of in Hrows; simpl in Hrows.
  - unfold prepend_log, rows_of at 1. simpl. intros Hu.
    apply IH in Hu as [Hu|Hu]; [|right; by right].
    destruct Hrows as [->|[_ ->]]; [by left|].
    unfold seen in *. rewrite elem_of_list_to_set in *. rewrite fmap_app in Hu.
    apply elem_of_app in Hu as [Hu|Hu]; [by left|].
    simpl in Hu. apply list_elem_of_singleton in Hu as ->. right. by left.
  - unfold rows_of. simpl. intros Hu.
    destruct Hrows as [->|[_ ->]]; [by left|].
    unfold seen in *. rewrite elem_of_list_to_set in *. rewrite fmap_app in Hu.
    apply elem_of_app in Hu as [Hu|Hu]; [by left|].
    simpl in Hu. apply list_elem_of_singleton in Hu as ->. right. by left.
Qed.

(** In a run the insert is only reached for identifiers without a row: the
    identifiers handed to the loop are distinct and were new, and the loop
    body writes the row of its own identifier only. *)
Lemma loop_reaches_new_identifiers processed url remaining t :
  NoDup (processed ++ url :: remaining) →
  (∀ u, u ∈ processed ++ url :: remaining → u ∉ seen t) →
  url ∉ seen (rows_of (for_each (process_url E my_resume) processed t)).
Proof.
  intros Hnd Hnew Hin. apply for_each_rows in Hin as [Hin|Hin].
  - apply (Hnew url); [|done]. apply elem_of_app. right. by left.
  - apply NoDup_app in Hnd as (_ & Hdisj & _). apply (Hdisj url Hin). by left.
Qed.

End Retry.

(** ** Fail-open-to-retry (C2) *)

(** C2, as the code has it.  For an identifier that had no row when the
    loop reaches it, the loop body records it if and only if extraction
    returned a non-empty text and comparison returned a value that Python
    counts as true (so neither [None] nor an empty object, list or
    string, nor zero or false).  Whenever extraction or comparison returns
    [None] the identifier gets no row, and a later run whose listing page
    shows a link that resolves to it hands it to the loop again; the
    later discovery fails to do so only by raising, when [urljoin]
    rejects a selected target of that page. *)
Theorem recorded_iff_text_and_analysis_are_truthy
    (E : env) (my_resume url : string) (t : list row) :
  url ∉ seen t →
  (url ∈ seen (rows_of (process_url E my_resume url t)) ↔
   ∃ text a,
     fst (get_clean_text_from_url E url) = Returned (Some text) ∧
     text ≠ "" ∧
     fst (analyze_with_deepseek E text my_resume) = Returned a ∧
     truthy a = true) ∧
  (fst (get_clean_text_from_url E url) = Returned None ∨
   (∃ text, fst (get_clean_text_from_url E url) = Returned (Some text) ∧
            fst (analyze_with_deepseek E text my_resume) = Returned PNone) →
   (url ∉ seen (rows_of (process_url E my_resume url t))) ∧
   ∀ (E' : env) (page : string) (anchors : list (option string)) (href : string),
     page_anchors E' page = Returned anchors →
     Some href ∈ anchors →
     matches_locator (Some href) = true →
     identifier_of E' page href = Returned url →
     url ≠ "" →
     match first_failure E' page (filter (fun a => matches_locator a = true) anchors) with
     | None =>
         ∃ new_job_urls,
           result_of (find_new_job_links E' page (rows_of (process_url E my_resume url t)))
             = Returned new_job_urls ∧
           url ∈ new_job_urls
     | Some e =>
         find_new_job_links E' page (rows_of (process_url E my_resume url t))
           = (Raised e, rows_of (process_url E my_resume url t), [scraping_line page])
     end).
Proof.
  intros Hs. pose proof (process_url_records E my_resume url t Hs) as Hiff.
  split; [exact Hiff|]. intros Hfail.
  assert (url ∉ seen (rows_of (process_url E my_resume url t))) as Hnot.
  { intros Hin. apply Hiff in Hin as (text & a & H & _ & Ha & Ht).
    destruct Hfail as [Hn | (text' & H' & Ha')]; [congruence|].
    rewrite H in H'. injection H' as <-. rewrite Ha in Ha'.
    injection Ha' as ->. discriminate Ht. }
  split; [exact Hnot|].
  intros E' page anchors href Hp Hin Hm Hid Hne.
  destruct (first_failure E' page _) as [e|] eqn:Hf.
  - by apply (find_new_job_links_unresolvable E' page anchors e).
  - by apply (find_new_job_links_presents E' page anchors _ href).
Qed.

Lemma recorded_iff_text_and_analysis_are_truthy_example :
  "https://x/jobs/2" ∈
    seen (rows_of (process_url Example.sunny Example.resume "https://x/jobs/2" Example.seen_1)).
Proof.
  apply (recorded_iff_text_and_analysis_are_truthy Example.sunny Example.resume
           "https://x/jobs/2" Example.seen_1).
  - vm_compute. set_solver.
  - exists "Software engineering intern, compilers team.", Example.full_analysis.
    split; [reflexivity|]. split; [discriminate|].
    split; [vm_compute; reflexivity | reflexivity].
Defined.

(** The claim of C2 fails: extraction returns a text and comparison
    returns the empty object, both present, and the identifier is not
    recorded. *)
Lemma present_but_empty_analysis_is_not_recorded :
  fst (get_clean_text_from_url Example.empty_object "https://x/jobs/2")
    = Returned (Some "Software engineering intern, compilers team.") ∧
  fst (analyze_with_deepseek Example.empty_object
         "Software engineering intern, compilers team." Example.resume)
    = Returned (PDict []) ∧
  rows_of (process_url Example.empty_object Example.resume "https://x/jobs/2" []) = [] ∧
  "https://x/jobs/2" ∉
    seen (rows_of (process_url Example.empty_object Example.resume "https://x/jobs/2" [])).
Proof.
  assert (rows_of (process_url Example.empty_object Example.resume "https://x/jobs/2" [])
            = []) as H by (vm_compute; reflexivity).
  split; [reflexivity|]. split; [vm_compute; reflexivity|]. split; [exact H|].
  rewrite H. apply not_seen_nil.
Qed.

(** ** Containment of per-item failures (C6) *)

(** C6, as the code has it.  When trafilatura raises an [Exception] or
    returns nothing, when the remote call ends in a [RequestException]
    (connection failure, timeout, 4xx or 5xx), or when the content of the
    reply does not decode, the loop body returns normally without writing
    a row, and the loop goes on with the next identifier. *)
Theorem contained_failures_do_not_stop_the_loop
    (E : env) (my_resume url : string) (rest : list string) (t : list row) :
  contained E my_resume url →
  ∃ l,
    for_each (process_url E my_resume) (url :: rest) t
      = prepend_log l (for_each (process_url E my_resume) rest t) ∧
    Forall (fun ev => is_commit ev = false) l.
Proof.
  intros Hc. destruct (contained_returns E my_resume url t Hc) as [l [Hl Hf]].
  exists l. split; [|exact Hf]. rewrite for_each_cons. by rewrite Hl.
Qed.

Lemma contained_failures_do_not_stop_the_loop_example :
  ∃ l,
    for_each (process_url (Example.html_body From_2_27) Example.resume)
        ["https://x/jobs/2"; "https://x/jobs/3"] []
      = prepend_log l
          (for_each (process_url (Example.html_body From_2_27) Example.resume)
             ["https://x/jobs/3"] []) ∧
    Forall (fun ev => is_commit ev = false) l.
Proof.
  apply (contained_failures_do_not_stop_the_loop (Example.html_body From_2_27)).
  apply (transport_failed _ _ _ "Software engineering intern, compilers team."
           None (Exn RequestsJSONDecodeError "Expecting value")).
  - reflexivity.
  - discriminate.
  - vm_compute. reflexivity.
  - reflexivity.
Defined.

(** The claim of C6 fails.  Two identifiers are new and the service
    answers 200 with a JSON body without ["choices"]: the [KeyError]
    leaves [analyze_with_deepseek] and the loop, and the identifier that
    comes second is never processed.  Likewise a persistence error: when
    the identifier that comes first already has a row at the time of the
    insert, the [IntegrityError] ends the loop before the second one. *)
Lemma shape_and_persistence_errors_abort_the_run :
  (result_of (find_new_job_links Example.no_choices TARGET_URL [])
     = Returned ["https://x/jobs/1"; "https://x/jobs/2"] ∧
   result_of (main Example.no_choices []) = Raised (Exn KeyError "choices") ∧
   processing_line "https://x/jobs/2" ∉ log_of (main Example.no_choices [])) ∧
  (result_of (for_each (process_url Example.sunny Example.resume)
                ["https://x/jobs/1"; "https://x/jobs/2"] Example.seen_1)
     = Raised (Exn IntegrityError "UNIQUE constraint failed: seen_urls.url") ∧
   processing_line "https://x/jobs/2" ∉
     log_of (for_each (process_url Example.sunny Example.resume)
               ["https://x/jobs/1"; "https://x/jobs/2"] Example.seen_1)).
Proof.
  split.
  - split; [vm_compute; reflexivity|]. split; [vm_compute; reflexivity|].
    assert (log_of (main Example.no_choices []) =
            [scraping_line TARGET_URL; found_line 2; processing_line "https://x/jobs/1";
             Post (build_request Example.no_choices
                     "Software engineering intern, compilers team." Example.resume)]) as ->
      by (vm_compute; reflexivity).
    intros H. repeat (apply elem_of_cons in H as [H|H]; [discriminate H|]).
    by apply not_elem_of_nil in H.
  - split; [vm_compute; reflexivity|].
    assert (log_of (for_each (process_url Example.sunny Example.resume)
                      ["https://x/jobs/1"; "https://x/jobs/2"] Example.seen_1) =
            [processing_line "https://x/jobs/1";
             Post (build_request Example.sunny
                     "Software engineering intern, compilers team." Example.resume);
             Print "Analysis complete:";
             Print (Json.dumps Example.full_analysis)]) as ->
      by (vm_compute; reflexivity).
    intros H. repeat (apply elem_of_cons in H as [H|H]; [discriminate H|]).
    by apply not_elem_of_nil in H.
Qed.

(** ** Idempotence of seen-marking (C7) *)

(** C7, as the code has it.  In a table that respects its primary key,
    calling [add_url_to_db] twice on an identifier leaves exactly one row
    for it: the second call raises [sqlite3.IntegrityError] and writes
    nothing.  After the first call [is_url_new] answers [False] for the
    identifier and keeps doing so after any further use of the store.  No
    handler of the script catches the error: a loop body that reaches the
    insert for an identifier that already has a row ends with it. *)
Theorem record_twice_keeps_one_record (E : env) (url : string) (t : list row) :
  primary_key t →
  records_of url (rows_of (add_url_to_db E url (rows_of (add_url_to_db E url t)))) = 1 ∧
  add_url_to_db E url (rows_of (add_url_to_db E url t)) =
    (Raised (Exn IntegrityError "UNIQUE constraint failed: seen_urls.url"),
     rows_of (add_url_to_db E url t), []) ∧
  (∀ ops, result_of (is_url_new url (run_ops E ops (rows_of (add_url_to_db E url t))))
          = Returned false) ∧
  (∀ my_resume text a,
     fst (get_clean_text_from_url E url) = Returned (Some text) →
     text ≠ "" →
     fst (analyze_with_deepseek E text my_resume) = Returned a →
     truthy a = true →
     result_of (process_url E my_resume url (rows_of (add_url_to_db E url t)))
       = Raised (Exn IntegrityError "UNIQUE constraint failed: seen_urls.url")).
Proof.
  intros Hpk.
  assert (url ∈ (rows_of (add_url_to_db E url t)).*1) as Hin.
  { destruct (decide (url ∈ t.*1)) as [H|H].
    - by rewrite add_url_to_db_duplicate.
    - rewrite add_url_to_db_fresh by done. unfold rows_of. simpl.
      rewrite fmap_app. apply elem_of_app. right. simpl. by left. }
  assert (primary_key (rows_of (add_url_to_db E url t))) as Hpk'
    by by apply add_url_to_db_primary_key.
  rewrite (add_url_to_db_duplicate E url _ Hin).
  split; [|split; [|split]].
  - unfold rows_of at 1. simpl. by apply records_of_primary_key.
  - reflexivity.
  - intros ops. apply is_url_new_false. unfold seen. rewrite elem_of_list_to_set.
    by apply run_ops_keeps.
  - intros my_resume text a H Hne Ha Ht.
    rewrite (process_url_duplicate E my_resume url _ text a H Hne Ha Ht); [done|].
    unfold seen. by rewrite elem_of_list_to_set.
Qed.

Lemma record_twice_keeps_one_record_example :
  records_of "https://x/jobs/2"
    (rows_of (add_url_to_db Example.sunny "https://x/jobs/2"
       (rows_of (add_url_to_db Example.sunny "https://x/jobs/2" Example.seen_1)))) = 1.
Proof.
  apply (record_twice_keeps_one_record Example.sunny "https://x/jobs/2" Example.seen_1).
  vm_compute. repeat constructor. set_solver.
Defined.

(** The claim of C7 fails where it says that the program tolerates the
    error of the second call: the identifier has a row, the insert raises
    [IntegrityError], and the loop ends there, before the next
    identifier. *)
Lemma duplicate_record_aborts_the_loop :
  result_of (add_url_to_db Example.sunny "https://x/jobs/1"
               (rows_of (add_url_to_db Example.sunny "https://x/jobs/1" [])))
    = Raised (Exn IntegrityError "UNIQUE constraint failed: seen_urls.url") ∧
  result_of (for_each (process_url Example.sunny Example.resume)
               ["https://x/jobs/1"; "https://x/jobs/2"]
               (rows_of (add_url_to_db Example.sunny "https://x/jobs/1" [])))
    = Raised (Exn IntegrityError "UNIQUE constraint failed: seen_urls.url") ∧
  "https://x/jobs/2" ∉
    seen (rows_of (for_each (process_url Example.sunny Example.resume)
                     ["https://x/jobs/1"; "https://x/jobs/2"]
                     (rows_of (add_url_to_db Example.sunny "https://x/jobs/1" [])))).
Proof.
  split; [vm_compute; reflexivity|]. split; [vm_compute; reflexivity|].
  assert (rows_of (for_each (process_url Example.sunny Example.resume)
                     ["https://x/jobs/1"; "https://x/jobs/2"]
                     (rows_of (add_url_to_db Example.sunny "https://x/jobs/1" [])))
          = [("https://x/jobs/1", 1762128000%Z)]) as -> by (vm_compute; reflexivity).
  unfold seen. rewrite elem_of_list_to_set. simpl. intros H.
  apply list_elem_of_singleton in H. discriminate H.
Qed.

(** * Further properties of the script *)

Section Logs.

Lemma commits_app l1 l2 : commits (l1 ++ l2) = commits l1 ++ commits l2.
Proof.
  induction l1 as [|ev l1 IH]; [done|]. destruct ev; simpl; by rewrite IH.
Qed.

Lemma posts_app l1 l2 : posts (l1 ++ l2) = posts l1 ++ posts l2.
Proof.
  induction l1 as [|ev l1 IH]; [done|]. destruct ev; simpl; by rewrite IH.
Qed.

Lemma commits_none l : Forall (fun ev => is_commit ev = false) l → commits l = [].
Proof.
  induction 1 as [|ev l Hev _ IH]; [done|]. destruct ev; simpl; try done.
Qed.

Lemma posts_get_clean_text E url : posts (snd (get_clean_text_from_url E url)) = [].
Proof.
  unfold get_clean_text_from_url.
  destruct (trafilatura_fetch_url E url ≫= trafilatura_extract E) as [c|e]; [done|].
  by destruct (is_Exception (exn_cls e)).
Qed.

Lemma posts_analyze E job_text resume_text :
  posts (snd (analyze_with_deepseek E job_text resume_text))
    = [build_request E job_text resume_text].
Proof.
  unfold analyze_with_deepseek.
  destruct (try_block E _) as [v|rc e]; [done|].
  destruct (is_RequestException (exn_cls e)); [done|].
  destruct (is_JSONDecodeError (exn_cls e)); [|done].
  by destruct rc.
Qed.

Lemma raise_for_status_error url resp :
  (400 ≤ status_code resp < 600)%Z →
  ∃ msg, raise_for_status url resp = Raised (Exn HTTPError msg).
Proof.
  intros H. unfold raise_for_status.
  destruct (400 <=? status_code resp)%Z eqn:H4; [|apply Z.leb_gt in H4; lia].
  destruct (status_code resp <? 500)%Z eqn:H5; simpl; [eauto|].
  destruct (500 <=? status_code resp)%Z eqn:H6; [|apply Z.leb_gt in H6; apply Z.ltb_ge in H5; lia].
  destruct (status_code resp <? 600)%Z eqn:H7; simpl; [eauto|].
  apply Z.ltb_ge in H7. lia.
Qed.

Lemma raise_for_status_ok url resp :
  ¬ (400 ≤ status_code resp < 600)%Z → raise_for_status url resp = Returned tt.
Proof.
  intros H. unfold raise_for_status.
  destruct (400 <=? status_code resp)%Z eqn:H4;
    destruct (status_code resp <? 500)%Z eqn:H5;
    destruct (500 <=? status_code resp)%Z eqn:H6;
    destruct (status_code resp <? 600)%Z eqn:H7; simpl; try reflexivity;
    exfalso; apply H;
    try apply Z.leb_le in H4; try apply Z.leb_gt in H4;
    try apply Z.ltb_lt in H5; try apply Z.ltb_ge in H5;
    try apply Z.leb_le in H6; try apply Z.leb_gt in H6;
    try apply Z.ltb_lt in H7; try apply Z.ltb_ge in H7; lia.
Qed.

Lemma lookup_error_is_not_caught c :
  is_lookup_error c = true →
  is_RequestException c = false ∧ is_JSONDecodeError c = false.
Proof. by destruct c. Qed.

Lemma unwrap_envelope_raises j e :
  unwrap_envelope j = Raised e → is_lookup_error (exn_cls e) = true.
Proof.
  unfold unwrap_envelope, mbind, outcome_bind, getitem_str, getitem_0.
  intros H.
  destruct j as [| | | | |?|d]; try (by injection H as <-).
  destruct (dict_get "choices" d) as [choices|]; [|by injection H as <-].
  destruct choices as [| | | |s|items|?]; try (by injection H as <-).
  { destruct s; by injection H as <-. }
  destruct items as [|first others]; [by injection H as <-|].
  destruct first as [| | | | |?|d1]; try (by injection H as <-).
  destruct (dict_get "message" d1) as [message|]; [|by injection H as <-].
  destruct message as [| | | | |?|d2]; try (by injection H as <-).
  destruct (dict_get "content" d2); [discriminate H|by injection H as <-].
Qed.

End Logs.

(** ** Extraction (lines 102-110) *)

(** X1.  [get_clean_text_from_url] never lets an [Exception] out: when
    [fetch_url] or [extract] raises one, it prints one line with the url
    and the error and returns [None]; when both return, it returns what
    [extract] returned, a download of [None] included, and prints nothing.
    Only an exception outside [Exception] passes through. *)
Theorem get_clean_text_from_url_absorbs_exceptions (E : env) (url : string) :
  (∀ e, fst (get_clean_text_from_url E url) = Raised e →
        is_Exception (exn_cls e) = false ∧
        trafilatura_fetch_url E url ≫= trafilatura_extract E = Raised e ∧
        snd (get_clean_text_from_url E url) = []) ∧
  (∀ e, trafilatura_fetch_url E url ≫= trafilatura_extract E = Raised e →
        is_Exception (exn_cls e) = true →
        get_clean_text_from_url E url =
          (Returned None,
           [Print ("Error extracting text from " +:+ url +:+ ": " +:+ exn_msg e)])) ∧
  (∀ downloaded clean_text,
        trafilatura_fetch_url E url = Returned downloaded →
        trafilatura_extract E downloaded = Returned clean_text →
        get_clean_text_from_url E url = (Returned clean_text, [])).
Proof.
  unfold get_clean_text_from_url. split; [|split].
  - intros e.
    destruct (trafilatura_fetch_url E url ≫= trafilatura_extract E) as [c|e'];
      [discriminate|].
    destruct (is_Exception (exn_cls e')) eqn:Hx; [discriminate|].
    simpl. by intros [= <-].
  - intros e -> Hx. by rewrite Hx.
  - intros downloaded clean_text -> Hx. simpl. by rewrite Hx.
Qed.

Lemma get_clean_text_from_url_absorbs_exceptions_example :
  get_clean_text_from_url Scenario.no_download "https://x/jobs/1" =
    (Returned None,
     [Print "Error extracting text from https://x/jobs/1: unknown url type"]).
Proof.
  destruct (get_clean_text_from_url_absorbs_exceptions Scenario.no_download
              "https://x/jobs/1") as (_ & H & _).
  apply (H (Exn (OtherException "ValueError") "unknown url type")); reflexivity.
Defined.

(** ** The remote call (lines 46-61) *)

(** X2.  A transport failure gives [None] and one printed line, with one
    request sent and no second attempt: this when [requests.post] raises
    a [RequestException], and when the reply has a 4xx or 5xx status,
    whatever its body. *)
Theorem transport_failures_return_None (E : env) (job_text resume_text : string) :
  (∀ e, requests_post E (build_request E job_text resume_text) = Raised e →
        is_RequestException (exn_cls e) = true →
        analyze_with_deepseek E job_text resume_text =
          (Returned PNone,
           [Post (build_request E job_text resume_text);
            Print ("Error calling Deepseek API: " +:+ exn_msg e)])) ∧
  (∀ resp, requests_post E (build_request E job_text resume_text) = Returned resp →
        (400 ≤ status_code resp < 600)%Z →
        ∃ msg,
          analyze_with_deepseek E job_text resume_text =
            (Returned PNone,
             [Post (build_request E job_text resume_text);
              Print ("Error calling Deepseek API: " +:+ msg)])).
Proof.
  split.
  - intros e Hp Hr. unfold analyze_with_deepseek, try_block. by rewrite Hp, Hr.
  - intros resp Hp Hs.
    destruct (raise_for_status_error
                (req_url (build_request E job_text resume_text)) resp Hs) as [msg Hm].
    exists msg. unfold analyze_with_deepseek, try_block. by rewrite Hp, Hm.
Qed.

Lemma transport_failures_return_None_example :
  ∃ msg,
    analyze_with_deepseek Scenario.server_error "job" "resume" =
      (Returned PNone,
       [Post (build_request Scenario.server_error "job" "resume");
        Print ("Error calling Deepseek API: " +:+ msg)]).
Proof.
  destruct (transport_failures_return_None Scenario.server_error "job" "resume")
    as [_ H].
  apply (H {| status_code := 503; reason := "Service Unavailable";
              text := Example.envelope (PStr (Json.dumps Example.full_analysis)) |}).
  - reflexivity.
  - simpl. lia.
Defined.

(** X3.  When the reply is in order but its content is not JSON, the
    function prints the content as it received it and returns [None]. *)
Theorem undecodable_content_is_printed
    (E : env) (job_text resume_text : string) (resp : response) (s m : string) :
  requests_post E (build_request E job_text resume_text) = Returned resp →
  ¬ (400 ≤ status_code resp < 600)%Z →
  response_json E resp ≫= unwrap_envelope = Returned (PStr s) →
  json_loads_str E s = Raised (Exn JSONDecodeError m) →
  analyze_with_deepseek E job_text resume_text =
    (Returned PNone,
     [Post (build_request E job_text resume_text);
      Print ("Error: Failed to decode JSON from API. Response was: " +:+ s)]).
Proof.
  intros Hp Hs Hj Hl. unfold analyze_with_deepseek, try_block.
  rewrite Hp, (raise_for_status_ok _ _ Hs), Hj. simpl. by rewrite Hl.
Qed.

Lemma undecodable_content_is_printed_example :
  analyze_with_deepseek Scenario.prose "job" "resume" =
    (Returned PNone,
     [Post (build_request Scenario.prose "job" "resume");
      Print "Error: Failed to decode JSON from API. Response was: Sure! Here is the analysis."]).
Proof.
  apply (undecodable_content_is_printed Scenario.prose "job" "resume"
           {| status_code := 200; reason := "OK";
              text := Example.envelope (PStr "Sure! Here is the analysis.") |}
           "Sure! Here is the analysis." "Expecting value").
  - reflexivity.
  - simpl. lia.
  - vm_compute. reflexivity.
  - vm_compute. reflexivity.
Defined.

(** X4.  Line 53 succeeds exactly on an object whose ["choices"] is a
    list that starts with an object whose ["message"] is an object with a
    ["content"]; further choices and further keys are ignored.  On any
    other value it raises [KeyError], [IndexError] or [TypeError]. *)
Theorem unwrap_envelope_contract (j : pyval) :
  (∀ content, unwrap_envelope j = Returned content ↔ well_shaped j content) ∧
  (∀ e, unwrap_envelope j = Raised e → is_lookup_error (exn_cls e) = true).
Proof.
  split; [|apply unwrap_envelope_raises].
  intros content. split.
  - unfold unwrap_envelope, mbind, outcome_bind, getitem_str, getitem_0.
    intros H.
    destruct j as [| | | | |?|d]; try discriminate H.
    destruct (dict_get "choices" d) as [choices|] eqn:Hc; [|discriminate H].
    destruct choices as [| | | |s|items|?]; try discriminate H.
    { destruct s; discriminate H. }
    destruct items as [|first others]; [discriminate H|].
    destruct first as [| | | | |?|d1]; try discriminate H.
    destruct (dict_get "message" d1) as [message|] eqn:Hm; [|discriminate H].
    destruct message as [| | | | |?|d2]; try discriminate H.
    destruct (dict_get "content" d2) as [c|] eqn:Hk; [|discriminate H].
    injection H as <-. exists d, others, d1, d2. eauto.
  - intros (d & others & d1 & d2 & -> & Hc & Hm & Hk).
    unfold unwrap_envelope, mbind, outcome_bind, getitem_str, getitem_0.
    by rewrite Hc, Hm, Hk.
Qed.

(** X5.  An envelope of another shape is not a contained failure: the
    [KeyError], [IndexError] or [TypeError] of line 53 leaves
    [analyze_with_deepseek], with nothing printed. *)
Theorem envelope_errors_escape
    (E : env) (job_text resume_text : string) (resp : response) (j : pyval) (e : exn) :
  requests_post E (build_request E job_text resume_text) = Returned resp →
  ¬ (400 ≤ status_code resp < 600)%Z →
  response_json E resp = Returned j →
  unwrap_envelope j = Raised e →
  analyze_with_deepseek E job_text resume_text =
    (Raised e, [Post (build_request E job_text resume_text)]).
Proof.
  intros Hp Hs Hj Hu.
  destruct (lookup_error_is_not_caught _ (unwrap_envelope_raises j e Hu)) as [Hr Hd].
  unfold analyze_with_deepseek, try_block.
  rewrite Hp, (raise_for_status_ok _ _ Hs), Hj. simpl. rewrite Hu.
  by rewrite Hr, Hd.
Qed.

Lemma envelope_errors_escape_example :
  analyze_with_deepseek Scenario.empty_choices "job" "resume" =
    (Raised (Exn IndexError "list index out of range"),
     [Post (build_request Scenario.empty_choices "job" "resume")]).
Proof.
  apply (envelope_errors_escape Scenario.empty_choices "job" "resume"
           {| status_code := 200; reason := "OK";
              text := Json.dumps (PDict [("choices", PList [])]) |}
           (PDict [("choices", PList [])])).
  - reflexivity.
  - simpl. lia.
  - vm_compute. reflexivity.
  - reflexivity.
Defined.

(** ** Requests sent by the loop body (lines 156-166) *)

(** X6.  The loop body sends one request for an identifier whose
    extraction gave a non-empty text, and none otherwise, whatever happens
    afterwards: no request without a text, and no second attempt. *)
Theorem one_request_per_item_with_text
    (E : env) (my_resume url : string) (t : list row) :
  posts (log_of (process_url E my_resume url t)) =
    match fst (get_clean_text_from_url E url) with
    | Returned (Some text) =>
        if String.eqb text "" then [] else [build_request E text my_resume]
    | _ => []
    end.
Proof.
  destruct (fst (get_clean_text_from_url E url)) as [[text|]|e] eqn:H.
  - destruct (decide (text = "")) as [->|Hne].
    { rewrite (process_url_no_text E my_resume url t (Some "")) by done.
      unfold log_of. simpl. apply posts_get_clean_text. }
    apply String.eqb_neq in Hne as Hb. rewrite Hb.
    destruct (fst (analyze_with_deepseek E text my_resume)) as [a|e] eqn:Ha.
    + destruct (truthy a) eqn:Ht.
      * destruct (decide (url ∈ seen t)) as [Hs|Hs].
        -- rewrite (process_url_duplicate E my_resume url t text a) by done.
           unfold log_of. simpl.
           by rewrite !posts_app, posts_get_clean_text, posts_analyze.
        -- rewrite (process_url_saved E my_resume url t text a) by done.
           unfold log_of. simpl.
           by rewrite !posts_app, posts_get_clean_text, posts_analyze.
      * rewrite (process_url_no_analysis E my_resume url t text a) by done.
        unfold log_of. simpl.
        by rewrite !posts_app, posts_get_clean_text, posts_analyze.
    + rewrite (process_url_analysis_raises E my_resume url t text e) by done.
      unfold log_of. simpl.
      by rewrite !posts_app, posts_get_clean_text, posts_analyze.
  - rewrite (process_url_no_text E my_resume url t None) by done.
    unfold log_of. simpl. apply posts_get_clean_text.
  - rewrite (process_url_extraction_raises E my_resume url t e) by done.
    unfold log_of. simpl. apply posts_get_clean_text.
Qed.

(** ** The Seen-Store (lines 67-99) *)

Section StoreFrame.

Lemma select_url_other u v ts : u ≠ v → select_url v [(u, ts)] = [].
Proof.
  intros Hne. unfold select_url. rewrite filter_cons_False; [done|].
  simpl. intros H. apply String_eqb_true in H. done.
Qed.

Lemma add_url_to_db_rows E url t :
  rows_of (add_url_to_db E url t) = t ∨
  rows_of (add_url_to_db E url t) = t ++ [(url, current_timestamp E)].
Proof.
  destruct (decide (url ∈ t.*1)) as [H|H].
  - left. by rewrite add_url_to_db_duplicate.
  - right. by rewrite add_url_to_db_fresh.
Qed.

Lemma run_op_prefix E op t : t `prefix_of` run_op E op t.
Proof.
  destruct op as [|url|url]; simpl; try done.
  destruct (add_url_to_db_rows E url t) as [->| ->]; [done|].
  by apply prefix_app_r.
Qed.

Lemma run_ops_prefix E ops t : t `prefix_of` run_ops E ops t.
Proof.
  unfold run_ops. revert t. induction ops as [|op ops IH]; simpl; [done|].
  intros t. etrans; [apply (run_op_prefix E op)|apply IH].
Qed.

End StoreFrame.

(** X7.  Recording an identifier changes the answer of [is_url_new] for
    that identifier only: for every other identifier the answer and the
    number of its rows are what they were. *)
Theorem recording_leaves_other_identifiers_alone
    (E : env) (u v : string) (t : list row) :
  u ≠ v →
  result_of (is_url_new v (rows_of (add_url_to_db E u t))) = result_of (is_url_new v t) ∧
  records_of v (rows_of (add_url_to_db E u t)) = records_of v t.
Proof.
  intros Hne. destruct (add_url_to_db_rows E u t) as [->| ->]; [done|].
  unfold is_url_new, records_of, result_of. simpl.
  by rewrite select_url_app, (select_url_other u v _ Hne), app_nil_r.
Qed.

Lemma recording_leaves_other_identifiers_alone_example :
  result_of (is_url_new "https://x/jobs/2"
               (rows_of (add_url_to_db Example.sunny "https://x/jobs/3" Example.seen_1)))
    = result_of (is_url_new "https://x/jobs/2" Example.seen_1).
Proof.
  apply (recording_leaves_other_identifiers_alone Example.sunny
           "https://x/jobs/3" "https://x/jobs/2" Example.seen_1).
  discriminate.
Defined.

(** X8.  The store is append-only: after any sequence of calls of
    [setup_database], [is_url_new] and [add_url_to_db], the rows there
    were come first and unchanged, and a table that respected its primary
    key still does. *)
Theorem store_is_append_only (E : env) (ops : list store_op) (t : list row) :
  t `prefix_of` run_ops E ops t ∧
  (primary_key t → primary_key (run_ops E ops t)).
Proof.
  split; [apply run_ops_prefix | apply run_ops_primary_key].
Qed.

Lemma store_is_append_only_example :
  primary_key
    (run_ops Example.sunny
       [Initialize; Record_ "https://x/jobs/2"; Contains "https://x/jobs/2";
        Record_ "https://x/jobs/2"; Record_ "https://x/jobs/3"]
       Example.seen_1).
Proof.
  apply (store_is_append_only Example.sunny).
  vm_compute. repeat constructor. intros H. apply not_elem_of_nil in H. exact H.
Defined.

(** ** Whole runs (lines 145-166) *)

Section Runs.

Context (E : env) (my_resume : string).

Lemma commits_get_clean_text url : commits (snd (get_clean_text_from_url E url)) = [].
Proof. apply commits_none, get_clean_text_never_commits. Qed.

Lemma commits_analyze text : commits (snd (analyze_with_deepseek E text my_resume)) = [].
Proof. apply commits_none, analyze_never_commits. Qed.

(** What the loop body does to the store, and what its log says of it. *)
Lemma process_url_effect url t :
  (rows_of (process_url E my_resume url t) = t ∧
   commits (log_of (process_url E my_resume url t)) = []) ∨
  ((url ∉ seen t) ∧
   result_of (process_url E my_resume url t) = Returned tt ∧
   rows_of (process_url E my_resume url t) = t ++ rows_for E [url] ∧
   commits (log_of (process_url E my_resume url t)) = [url]).
Proof.
  destruct (fst (get_clean_text_from_url E url)) as [[text|]|e] eqn:H.
  - destruct (decide (text = "")) as [->|Hne].
    { left. rewrite (process_url_no_text E my_resume url t (Some "")) by done.
      unfold rows_of, log_of, processing_line. simpl.
      by rewrite commits_get_clean_text. }
    destruct (fst (analyze_with_deepseek E text my_resume)) as [a|e] eqn:Ha.
    + destruct (truthy a) eqn:Ht.
      * destruct (decide (url ∈ seen t)) as [Hs|Hs].
        -- left. rewrite (process_url_duplicate E my_resume url t text a) by done.
           unfold rows_of, log_of, processing_line. simpl.
           by rewrite !commits_app, commits_get_clean_text, commits_analyze.
        -- right. rewrite (process_url_saved E my_resume url t text a) by done.
           unfold rows_of, log_of, result_of, processing_line, saved_line. simpl.
           by rewrite !commits_app, commits_get_clean_text, commits_analyze.
      * left. rewrite (process_url_no_analysis E my_resume url t text a) by done.
        unfold rows_of, log_of, processing_line. simpl.
        by rewrite !commits_app, commits_get_clean_text, commits_analyze.
    + left. rewrite (process_url_analysis_raises E my_resume url t text e) by done.
      unfold rows_of, log_of, processing_line. simpl.
      by rewrite !commits_app, commits_get_clean_text, commits_analyze.
  - left. rewrite (process_url_no_text E my_resume url t None) by done.
    unfold rows_of, log_of, processing_line. simpl.
    by rewrite commits_get_clean_text.
  - left. rewrite (process_url_extraction_raises E my_resume url t e) by done.
    unfold rows_of, log_of, processing_line. simpl.
    by rewrite commits_get_clean_text.
Qed.

Lemma for_each_effect l t :
  ∃ added,
    rows_of (for_each (process_url E my_resume) l t) = t ++ rows_for E added ∧
    commits (log_of (for_each (process_url E my_resume) l t)) = added ∧
    (∀ u, u ∈ added → u ∈ l).
Proof.
  revert t. induction l as [|x l IH]; intros t.
  { exists []. unfold rows_of, log_of, rows_for. simpl. by rewrite app_nil_r. }
  rewrite for_each_cons.
  pose proof (process_url_effect x t) as Heff.
  destruct (process_url E my_resume x t) as [[[[]|e] t1] l1] eqn:Hp;
    unfold rows_of, log_of, result_of in Heff; simpl in Heff.
  - destruct (IH t1) as (added & Hrows & Hlog & Hin).
    unfold prepend_log, rows_of at 1, log_of at 1. simpl.
    destruct Heff as [[-> Hc]|(Hs & _ & -> & Hc)].
    + exists added. rewrite commits_app, Hc. split; [done|].
      split; [simpl; by rewrite Hlog|].
      intros u Hu. right. by apply Hin.
    + exists (x :: added). rewrite commits_app, Hc, Hrows.
      split; [rewrite <- app_assoc; reflexivity|].
      split; [simpl; by rewrite Hlog|].
      intros u Hu. apply elem_of_cons in Hu as [->|Hu]; [by left|right; by apply Hin].
  - exists []. unfold rows_of, log_of, rows_for. simpl.
    destruct Heff as [[-> Hc]|(_ & Hr & _)]; [|discriminate Hr].
    rewrite app_nil_r. split; [done|]. split; [done|]. intros u Hu.
    by apply not_elem_of_nil in Hu.
Qed.

Lemma primary_key_snoc url ts t :
  primary_key t → url ∉ seen t → primary_key (t ++ [(url, ts)]).
Proof.
  unfold primary_key, seen. rewrite elem_of_list_to_set, fmap_app. intros Hpk Hs.
  apply NoDup_app. split; [done|]. split; [|apply NoDup_singleton].
  intros x Hx Hx'. simpl in Hx'. apply list_elem_of_singleton in Hx' as ->. done.
Qed.

Lemma for_each_primary_key l t :
  primary_key t → primary_key (rows_of (for_each (process_url E my_resume) l t)).
Proof.
  revert t. induction l as [|x l IH]; intros t Hpk; [done|].
  rewrite for_each_cons.
  pose proof (process_url_rows E my_resume x t) as Hrows.
  destruct (process_url E my_resume x t) as [[[[]|e] t1] l1] eqn:Hp;
    unfold rows_of in Hrows; simpl in Hrows.
  - unfold prepend_log, rows_of at 1. simpl. apply IH.
    destruct Hrows as [->|[Hs ->]]; [done|]. by apply primary_key_snoc.
  - unfold rows_of. simpl.
    destruct Hrows as [->|[Hs ->]]; [done|]. by apply primary_key_snoc.
Qed.

Lemma seen_app t k : seen (t ++ k) = seen t ∪ seen k.
Proof. unfold seen. by rewrite fmap_app, list_to_set_app_L. Qed.

Lemma seen_rows_for urls : seen (rows_for E urls) = list_to_set urls.
Proof.
  unfold seen, rows_for. f_equal. induction urls as [|u urls IH]; [done|].
  simpl in *. by f_equal.
Qed.

Lemma for_each_all_succeed l t :
  NoDup l →
  (∀ u, u ∈ l → u ∉ seen t) →
  (∀ u, u ∈ l → succeeds E my_resume u) →
  ∃ log,
    for_each (process_url E my_resume) l t = (Returned tt, t ++ rows_for E l, log) ∧
    commits log = l.
Proof.
  revert t. induction l as [|x l IH]; intros t Hnd Hnew Hok.
  { exists []. unfold rows_for. simpl. by rewrite app_nil_r. }
  apply NoDup_cons in Hnd as [Hx Hnd].
  destruct (Hok x) as (text & a & H & Hne & Ha & Ht); [by left|].
  assert (x ∉ seen t) as Hs by (apply Hnew; by left).
  destruct (IH (t ++ [(x, current_timestamp E)]) Hnd) as (log & Hfor & Hc).
  - intros u Hu. rewrite seen_app. intros Hin. apply elem_of_union in Hin as [Hin|Hin].
    + apply (Hnew u); [by right|done].
    + unfold seen in Hin. simpl in Hin.
      apply elem_of_union in Hin as [Hin|Hin]; [|by apply not_elem_of_empty in Hin].
      apply elem_of_singleton in Hin as ->. done.
  - intros u Hu. apply Hok. by right.
  - rewrite for_each_cons.
    rewrite (process_url_saved E my_resume x t text a H Hne Ha Ht Hs).
    rewrite Hfor. unfold prepend_log, result_of, rows_of, log_of. simpl.
    eexists. split.
    + f_equal. f_equal. unfold rows_for. simpl. by rewrite <- app_assoc.
    + unfold processing_line, saved_line. simpl.
      by rewrite !commits_app, commits_get_clean_text, commits_analyze, Hc.
Qed.

Lemma new_links_set anchors t :
  (list_to_set
     (unique (new_of E TARGET_URL t (filter (fun a => matches_locator a = true) anchors)))
   : gset string)
  = discovered E TARGET_URL anchors ∖ seen t.
Proof.
  apply set_eq. intros u. rewrite elem_of_list_to_set. apply elem_of_unique_new_of.
Qed.

Lemma main_nothing_new anchors t :
  open_resume E = Returned my_resume →
  page_anchors E TARGET_URL = Returned anchors →
  resolvable E TARGET_URL anchors →
  discovered E TARGET_URL anchors ⊆ seen t →
  main E t = (Returned tt, t, [scraping_line TARGET_URL; found_line 0]).
Proof.
  intros Hr Hp Hv Hsub. rewrite (main_eq E my_resume anchors t Hr Hp Hv).
  assert (unique (new_of E TARGET_URL t
                    (filter (fun a => matches_locator a = true) anchors)) = []) as ->.
  { apply elem_of_nil_inv. intros u Hu.
    assert (u ∈ discovered E TARGET_URL anchors ∖ seen t) as Hin.
    { rewrite <- new_links_set. by apply elem_of_list_to_set. }
    apply elem_of_difference in Hin as [Hd Hs]. apply Hs. by apply Hsub. }
  reflexivity.
Qed.

End Runs.

(** What a run does to the store, whichever way it ends. *)
Lemma main_effect (E : env) (t : list row) :
  ∃ added,
    rows_of (main E t) = t ++ rows_for E added ∧
    commits (log_of (main E t)) = added ∧
    (primary_key t → primary_key (rows_of (main E t))) ∧
    (∀ anchors, page_anchors E TARGET_URL = Returned anchors →
       ∀ u, u ∈ added → u ∈ discovered E TARGET_URL anchors ∧ u ∉ seen t) ∧
    (∀ e, page_anchors E TARGET_URL = Raised e → added = []).
Proof.
  assert (∀ e l, commits l = [] →
            ∃ added,
              rows_of (Raised e : outcome unit, t, l) = t ++ rows_for E added ∧
              commits (log_of (Raised e : outcome unit, t, l)) = added ∧
              (primary_key t → primary_key (rows_of (Raised e : outcome unit, t, l))) ∧
              (∀ anchors, page_anchors E TARGET_URL = Returned anchors →
                 ∀ u, u ∈ added → u ∈ discovered E TARGET_URL anchors ∧ u ∉ seen t) ∧
              (∀ e', page_anchors E TARGET_URL = Raised e' → added = [])) as Hstop.
  { intros e l Hl. exists []. unfold rows_of, log_of, rows_for. cbn [fst snd].
    rewrite Hl. cbn [fmap list_fmap]. rewrite app_nil_r.
    split; [done|]. split; [done|]. split; [done|]. split; [|done].
    intros anchors _ u Hu. by apply not_elem_of_nil in Hu. }
  destruct (open_resume E) as [resume_text|e] eqn:Hr.
  - destruct (page_anchors E TARGET_URL) as [anchors|e] eqn:Hp.
    + destruct (first_failure E TARGET_URL
                  (filter (fun a => matches_locator a = true) anchors)) as [e|] eqn:Hf.
      { rewrite (main_unresolvable E resume_text anchors e t Hr Hp Hf). by apply Hstop. }
      rewrite (main_eq E resume_text anchors t Hr Hp Hf). cbn zeta.
      pose proof (new_links_set E anchors t) as Hset.
      set (l := unique (new_of E TARGET_URL t
                          (filter (fun a => matches_locator a = true) anchors))) in *.
      destruct (for_each_effect E resume_text l t) as (added & Hrows & Hlog & Hin).
      exists added. unfold prepend_log, rows_of at 1 2, log_of at 1. cbn [fst snd].
      split; [exact Hrows|]. split; [exact Hlog|]. split; [|split].
      * apply for_each_primary_key.
      * intros anchors' [= <-] u Hu. apply elem_of_difference. rewrite <- Hset.
        apply elem_of_list_to_set. by apply Hin.
      * discriminate.
    + rewrite (main_page_raises E resume_text e t Hr Hp).
      destruct (Hstop e [scraping_line TARGET_URL] eq_refl)
        as (added & H1 & H2 & H3 & H4 & H5).
      exists added. split; [done|]. split; [done|]. split; [done|]. split; [|done].
      intros anchors [=].
  - assert (main E t = (Raised e, t, [])) as ->.
    { unfold main, setup_database, lift_outcome.
      unfold mbind at 1 2, M_bind. by rewrite Hr. }
    by apply Hstop.
Qed.

(** X10.  If [resume.txt] cannot be read the run ends at once with that
    exception: nothing is printed, the page is not visited and the store
    is not touched. *)
Theorem unreadable_resume_ends_the_run (E : env) (e : exn) (t : list row) :
  open_resume E = Raised e →
  main E t = (Raised e, t, []).
Proof.
  intros H. unfold main, setup_database, lift_outcome.
  unfold mbind at 1 2, M_bind. by rewrite H.
Qed.

Lemma unreadable_resume_ends_the_run_example :
  main Scenario.no_resume Example.seen_1 =
    (Raised (Exn FileNotFoundError "[Errno 2] No such file or directory: 'resume.txt'"),
     Example.seen_1, []).
Proof.
  apply (unreadable_resume_ends_the_run Scenario.no_resume). reflexivity.
Defined.

(** X11.  When every identifier the page shows already has a row, the
    run prints the two lines ["Scraping ..."] and ["Found 0 new job
    postings."], sends no request and leaves the store as it was; it does
    so unless [urljoin] rejects a selected target, when it ends with that
    exception after the first line, the store untouched as well. *)
Theorem nothing_new_is_a_no_op
    (E : env) (my_resume : string) (anchors : list (option string)) (t : list row) :
  open_resume E = Returned my_resume →
  page_anchors E TARGET_URL = Returned anchors →
  discovered E TARGET_URL anchors ⊆ seen t →
  main E t =
    match first_failure E TARGET_URL (filter (fun a => matches_locator a = true) anchors) with
    | None => (Returned tt, t, [scraping_line TARGET_URL; found_line 0])
    | Some e => (Raised e, t, [scraping_line TARGET_URL])
    end.
Proof.
  intros Hr Hp Hsub.
  destruct (first_failure E TARGET_URL _) as [e|] eqn:Hf.
  - by apply (main_unresolvable E my_resume anchors e t).
  - by apply (main_nothing_new E my_resume anchors t).
Qed.

Lemma nothing_new_is_a_no_op_example :
  main Example.sunny Scenario.seen_1_2 =
    (Returned tt, Scenario.seen_1_2, [scraping_line TARGET_URL; found_line 0]) ∧
  main Scenario.malformed_link Scenario.seen_1_2 =
    (Raised (Exn (OtherException "ValueError") "Invalid IPv6 URL"),
     Scenario.seen_1_2, [scraping_line TARGET_URL]).
Proof.
  split.
  - pose proof (nothing_new_is_a_no_op Example.sunny Example.resume
                  [Some "https://x/jobs/1"; Some "https://x/jobs/2"]
                  Scenario.seen_1_2 eq_refl eq_refl) as H.
    assert (first_failure Example.sunny TARGET_URL
              (filter (fun a => matches_locator a = true)
                 [Some "https://x/jobs/1"; Some "https://x/jobs/2"]) = None) as Hf
      by (vm_compute; reflexivity).
    rewrite Hf in H. apply H.
    assert (discovered Example.sunny TARGET_URL
              [Some "https://x/jobs/1"; Some "https://x/jobs/2"]
            = seen Scenario.seen_1_2) as -> by (vm_compute; reflexivity).
    reflexivity.
  - pose proof (nothing_new_is_a_no_op Scenario.malformed_link Example.resume
                  [Some "https://x/jobs/2"; Some "//[/jobs/1"]
                  Scenario.seen_1_2 eq_refl eq_refl) as H.
    assert (first_failure Scenario.malformed_link TARGET_URL
              (filter (fun a => matches_locator a = true)
                 [Some "https://x/jobs/2"; Some "//[/jobs/1"])
            = Some (Exn (OtherException "ValueError") "Invalid IPv6 URL")) as Hf
      by (vm_compute; reflexivity).
    rewrite Hf in H. apply H.
    assert (discovered Scenario.malformed_link TARGET_URL
              [Some "https://x/jobs/2"; Some "//[/jobs/1"]
            = {[ "https://x/jobs/2" ]}) as -> by (vm_compute; reflexivity).
    assert (seen Scenario.seen_1_2 = {[ "https://x/jobs/1"; "https://x/jobs/2" ]}) as ->
      by (vm_compute; reflexivity).
    intros u Hu. apply elem_of_singleton in Hu as ->.
    apply elem_of_union. right. by apply elem_of_singleton.
Defined.

(** X12.  When the page loads, [urljoin] accepts every selected target
    and, for every new identifier, extraction and comparison give a
    value Python counts as true, the run ends
    normally having recorded exactly the new identifiers, one commit
    each; a second run on the same page then finds nothing new and
    changes nothing. *)
Theorem successful_run_leaves_nothing_new
    (E : env) (my_resume : string) (anchors : list (option string)) (t : list row) :
  open_resume E = Returned my_resume →
  page_anchors E TARGET_URL = Returned anchors →
  resolvable E TARGET_URL anchors →
  (∀ u, u ∈ discovered E TARGET_URL anchors ∖ seen t → succeeds E my_resume u) →
  ∃ new_job_urls log,
    main E t = (Returned tt, t ++ rows_for E new_job_urls, log) ∧
    commits log = new_job_urls ∧
    NoDup new_job_urls ∧
    (list_to_set new_job_urls : gset string) = discovered E TARGET_URL anchors ∖ seen t ∧
    main E (t ++ rows_for E new_job_urls) =
      (Returned tt, t ++ rows_for E new_job_urls,
       [scraping_line TARGET_URL; found_line 0]).
Proof.
  intros Hr Hp Hv Hok.
  pose proof (new_links_set E anchors t) as Hset.
  set (l := unique (new_of E TARGET_URL t
                      (filter (fun a => matches_locator a = true) anchors))) in *.
  destruct (for_each_all_succeed E my_resume l t) as (log & Hfor & Hc).
  { apply NoDup_unique. }
  { intros u Hu Hs.
    assert (u ∈ discovered E TARGET_URL anchors ∖ seen t) as Hin
      by (rewrite <- Hset; by apply elem_of_list_to_set).
    apply elem_of_difference in Hin as [_ Hn]. done. }
  { intros u Hu. apply Hok. rewrite <- Hset. by apply elem_of_list_to_set. }
  exists l, ([scraping_line TARGET_URL; found_line (length l)] ++ log).
  split; [|split; [|split; [|split]]].
  - rewrite (main_eq E my_resume anchors t Hr Hp Hv). fold l. simpl.
    rewrite Hfor. reflexivity.
  - unfold scraping_line, found_line. simpl. exact Hc.
  - apply NoDup_unique.
  - exact Hset.
  - apply (main_nothing_new E my_resume anchors); [done|done|done|].
    rewrite seen_app, seen_rows_for, Hset.
    intros u Hu. destruct (decide (u ∈ seen t)) as [Hs|Hs].
    + apply elem_of_union. by left.
    + apply elem_of_union. right. by apply elem_of_difference.
Qed.

Lemma successful_run_leaves_nothing_new_example :
  ∃ new_job_urls log,
    main Example.sunny Example.seen_1 =
      (Returned tt, Example.seen_1 ++ rows_for Example.sunny new_job_urls, log) ∧
    commits log = new_job_urls ∧
    NoDup new_job_urls ∧
    (list_to_set new_job_urls : gset string) =
      discovered Example.sunny TARGET_URL
        [Some "https://x/jobs/1"; Some "https://x/jobs/2"] ∖ seen Example.seen_1 ∧
    main Example.sunny (Example.seen_1 ++ rows_for Example.sunny new_job_urls) =
      (Returned tt, Example.seen_1 ++ rows_for Example.sunny new_job_urls,
       [scraping_line TARGET_URL; found_line 0]).
Proof.
  apply (successful_run_leaves_nothing_new Example.sunny Example.resume).
  - reflexivity.
  - reflexivity.
  - vm_compute. reflexivity.
  - intros u _.
    exists "Software engineering intern, compilers team.", Example.full_analysis.
    split; [reflexivity|]. split; [discriminate|].
    split; [vm_compute; reflexivity | reflexivity].
Defined.

(** X13.  Whatever happens in a run, also when it ends in an exception,
    the store afterwards is the store before followed by one row for each
    commit of the log, in that order; the primary key is kept; and when
    the page loaded, every identifier recorded was shown by the page and
    had no row before. *)
Theorem run_appends_rows_of_new_identifiers_only (E : env) (t : list row) :
  ∃ added,
    rows_of (main E t) = t ++ rows_for E added ∧
    commits (log_of (main E t)) = added ∧
    (primary_key t → primary_key (rows_of (main E t))) ∧
    (∀ anchors, page_anchors E TARGET_URL = Returned anchors →
       ∀ u, u ∈ added → u ∈ discovered E TARGET_URL anchors ∧ u ∉ seen t) ∧
    (∀ e, page_anchors E TARGET_URL = Raised e → added = []).
Proof. apply main_effect. Qed.

Lemma run_appends_rows_of_new_identifiers_only_example :
  ∃ added,
    rows_of (main Example.no_choices Example.seen_1)
      = Example.seen_1 ++ rows_for Example.no_choices added ∧
    commits (log_of (main Example.no_choices Example.seen_1)) = added.
Proof.
  destruct (run_appends_rows_of_new_identifiers_only Example.no_choices Example.seen_1)
    as (added & Hrows & Hlog & _).
  exists added. split; [exact Hrows | exact Hlog].
Defined.

(** X14.  The second line of a run whose page loaded reports the number
    of distinct new identifiers, however many anchors lead to them; there
    is no second line when [urljoin] rejects a selected target, the run
    ending with that exception after the first. *)
Theorem found_line_counts_distinct_new_identifiers
    (E : env) (my_resume : string) (anchors : list (option string)) (t : list row) :
  open_resume E = Returned my_resume →
  page_anchors E TARGET_URL = Returned anchors →
  match first_failure E TARGET_URL (filter (fun a => matches_locator a = true) anchors) with
  | None =>
      ∃ rest,
        log_of (main E t) =
          scraping_line TARGET_URL ::
          found_line (size (discovered E TARGET_URL anchors ∖ seen t)) :: rest
  | Some e => main E t = (Raised e, t, [scraping_line TARGET_URL])
  end.
Proof.
  intros Hr Hp.
  destruct (first_failure E TARGET_URL _) as [e|] eqn:Hf.
  - by apply (main_unresolvable E my_resume anchors e t).
  - rewrite (main_eq E my_resume anchors t Hr Hp Hf). simpl.
    eexists. unfold prepend_log, log_of at 1. simpl. do 3 f_equal.
    rewrite <- (new_links_set E anchors t). unfold unique.
    by rewrite list_to_set_elements_L.
Qed.

Lemma found_line_counts_distinct_new_identifiers_example :
  (∃ rest,
     log_of (main Example.mixed_links Example.seen_1) =
       scraping_line TARGET_URL ::
       found_line
         (size (discovered Example.mixed_links TARGET_URL
                  [Some "/jobs/2"; Some "https://x/jobs/1"; None; Some "/about"]
                ∖ seen Example.seen_1)) :: rest) ∧
  main Scenario.malformed_link Example.seen_1 =
    (Raised (Exn (OtherException "ValueError") "Invalid IPv6 URL"),
     Example.seen_1, [scraping_line TARGET_URL]).
Proof.
  split.
  - pose proof (found_line_counts_distinct_new_identifiers Example.mixed_links
                  Example.resume
                  [Some "/jobs/2"; Some "https://x/jobs/1"; None; Some "/about"]
                  Example.seen_1 eq_refl eq_refl) as H.
    assert (first_failure Example.mixed_links TARGET_URL
              (filter (fun a => matches_locator a = true)
                 [Some "/jobs/2"; Some "https://x/jobs/1"; None; Some "/about"]) = None)
      as Hf by (vm_compute; reflexivity).
    rewrite Hf in H. exact H.
  - pose proof (found_line_counts_distinct_new_identifiers Scenario.malformed_link
                  Example.resume [Some "https://x/jobs/2"; Some "//[/jobs/1"]
                  Example.seen_1 eq_refl eq_refl) as H.
    assert (first_failure Scenario.malformed_link TARGET_URL
              (filter (fun a => matches_locator a = true)
                 [Some "https://x/jobs/2"; Some "//[/jobs/1"])
            = Some (Exn (OtherException "ValueError") "Invalid IPv6 URL")) as Hf
      by (vm_compute; reflexivity).
    rewrite Hf in H. exact H.
Defined.

(** ** The prompt (lines 22-44) *)

Section Prompt.

Lemma contains_unfold sub s :
  contains sub s =
    String.prefix sub s ||
    match s with
    | EmptyString => false
    | String _ s' => contains sub s'
    end.
Proof. by destruct s. Qed.

Lemma prefix_append s rest : String.prefix s (s +:+ rest) = true.
Proof.
  induction s as [|c s IH]; simpl; [by destruct rest|].
  destruct (ascii_dec c c); [exact IH|done].
Qed.

Lemma contains_here s rest : contains s (s +:+ rest) = true.
Proof. by rewrite contains_unfold, prefix_append. Qed.

Lemma contains_append_r sub before s :
  contains sub s = true → contains sub (before +:+ s) = true.
Proof.
  intros H. induction before as [|c before IH]; simpl; [done|].
  rewrite IH. apply orb_true_r.
Qed.

End Prompt.

(** X15.  The request carries one message, of role [user], and that
    message contains the resume and the job text as they were given,
    neither shortened nor escaped. *)
Theorem prompt_embeds_both_texts (E : env) (job_text resume_text : string) :
  req_messages (build_request E job_text resume_text)
    = [("user", build_prompt job_text resume_text)] ∧
  contains resume_text (build_prompt job_text resume_text) = true ∧
  contains job_text (build_prompt job_text resume_text) = true.
Proof.
  split; [reflexivity|]. unfold build_prompt.
  split; repeat first [apply contains_here | apply contains_append_r].
Qed.

(** X16.  What a run did not record is what the next run is given:
    whatever happened in a run, also when it ended in an exception, the
    identifiers a following run finds new are those its page shows,
    minus those seen before the first run, minus those the first run
    committed; the following discovery returns them unless [urljoin]
    rejects a selected target of its page, when it raises that
    exception. *)
Theorem next_run_gets_what_was_not_recorded
    (E E' : env) (anchors' : list (option string)) (t : list row) :
  page_anchors E' TARGET_URL = Returned anchors' →
  match first_failure E' TARGET_URL
          (filter (fun a => matches_locator a = true) anchors') with
  | None =>
      ∃ new_job_urls,
        result_of (find_new_job_links E' TARGET_URL (rows_of (main E t)))
          = Returned new_job_urls ∧
        (list_to_set new_job_urls : gset string) =
          discovered E' TARGET_URL anchors' ∖ seen t
            ∖ list_to_set (commits (log_of (main E t)))
  | Some e =>
      result_of (find_new_job_links E' TARGET_URL (rows_of (main E t))) = Raised e
  end.
Proof.
  intros Hp.
  destruct (first_failure E' TARGET_URL _) as [e|] eqn:Hf.
  { by rewrite (find_new_job_links_unresolvable E' TARGET_URL anchors' e _ Hp Hf). }
  destruct (main_effect E t) as (added & Hrows & Hlog & _).
  rewrite Hlog, Hrows.
  rewrite (find_new_job_links_eq E' TARGET_URL anchors' _ Hp Hf).
  eexists. split; [reflexivity|].
  rewrite (new_links_set E' anchors'), seen_app, seen_rows_for.
  apply set_eq. intros u. rewrite !elem_of_difference, elem_of_union. tauto.
Qed.

Lemma next_run_gets_what_was_not_recorded_example :
  (∃ new_job_urls,
     result_of (find_new_job_links Example.sunny TARGET_URL
                  (rows_of (main Example.no_choices Example.seen_1)))
       = Returned new_job_urls ∧
     (list_to_set new_job_urls : gset string) =
       discovered Example.sunny TARGET_URL
         [Some "https://x/jobs/1"; Some "https://x/jobs/2"] ∖ seen Example.seen_1
         ∖ list_to_set (commits (log_of (main Example.no_choices Example.seen_1)))) ∧
  result_of (find_new_job_links Scenario.malformed_link TARGET_URL
               (rows_of (main Example.no_choices Example.seen_1)))
    = Raised (Exn (OtherException "ValueError") "Invalid IPv6 URL").
Proof.
  split.
  - pose proof (next_run_gets_what_was_not_recorded Example.no_choices Example.sunny
                  [Some "https://x/jobs/1"; Some "https://x/jobs/2"]
                  Example.seen_1 eq_refl) as H.
    assert (first_failure Example.sunny TARGET_URL
              (filter (fun a => matches_locator a = true)
                 [Some "https://x/jobs/1"; Some "https://x/jobs/2"]) = None) as Hf
      by (vm_compute; reflexivity).
    rewrite Hf in H. exact H.
  - pose proof (next_run_gets_what_was_not_recorded Example.no_choices
                  Scenario.malformed_link
                  [Some "https://x/jobs/2"; Some "//[/jobs/1"]
                  Example.seen_1 eq_refl) as H.
    assert (first_failure Scenario.malformed_link TARGET_URL
              (filter (fun a => matches_locator a = true)
                 [Some "https://x/jobs/2"; Some "//[/jobs/1"])
            = Some (Exn (OtherException "ValueError") "Invalid IPv6 URL")) as Hf
      by (vm_compute; reflexivity).
    rewrite Hf in H. exact H.
Defined.
